(** * scripts/generate_test_references.py: a shallow embedding

    The script shells out to external tools, touches the file system and
    prints.  The embedding keeps these effects explicit:

    - Python [str] values are sequences of Unicode code points;
    - [pathlib.Path] (POSIX flavour) is a record of a root and the list
      of path components, with [name], [suffix], [stem], [with_suffix]
      and [/] as the standard library computes them;
    - the file system is a finite map from path text to a node (a regular
      file with its text, or a directory); the anchors ".", "/" and "//"
      are directories that always exist;
    - every function of the script is a computation in a state-and-
      exception monad over the file system and a chronological trace of
      observable events (lines printed, processes launched, directories
      created, files written);
    - what the environment decides is read from an [Env] record: whether
      an external command can be launched, its exit status and what it
      does to the file system, the errors the operating system reports
      for reasons the tree does not show (permissions, name length, a
      full disk), and the wall clock.

    Model boundary: symbolic links and ".." resolution are not tracked;
    a file is written in one step; standard output accepts every text. *)

From Stdlib Require Import ZArith NArith List String Ascii Lia.
From stdpp Require Import gmap list.

Local Open Scope N_scope.

(** ** Text *)

Abbreviation pystr := (list N).

(** A literal of the script, as code points. *)
Definition lit (s : string) : pystr :=
  map N_of_ascii (list_ascii_of_string s).

Definition SEP : N := 47.        (* "/" *)
Definition DOT : N := 46.        (* "." *)
Definition CHECK_MARK : N := 10003.   (* U+2713 *)
Definition BALLOT_X : N := 10007.     (* U+2717 *)

Definition pystr_eqb (a b : pystr) : bool := bool_decide (a = b).

(** [sep.join(parts)] *)
Fixpoint join (sep : pystr) (parts : list pystr) : pystr :=
  match parts with
  | [] => []
  | [p] => p
  | p :: rest => p ++ sep ++ join sep rest
  end.

(** [s.split("/")] *)
Fixpoint split_sep (s : pystr) : list pystr :=
  match s with
  | [] => [[]]
  | c :: t =>
      if c =? SEP then [] :: split_sep t
      else match split_sep t with
           | h :: r => (c :: h) :: r
           | [] => [[c]]
           end
  end.

(** [s.lstrip("/")] *)
Fixpoint lstrip_sep (s : pystr) : pystr :=
  match s with
  | c :: t => if c =? SEP then lstrip_sep t else s
  | [] => []
  end.

(** [s.rfind(c)], with [None] for Python's -1. *)
Fixpoint rfind (c : N) (s : pystr) : option nat :=
  match s with
  | [] => None
  | x :: t =>
      match rfind c t with
      | Some i => Some (S i)
      | None => if x =? c then Some O else None
      end
  end.

(** Decimal digits, most significant first. *)
Fixpoint digits_of_uint (u : Decimal.uint) : pystr :=
  match u with
  | Decimal.Nil => []
  | Decimal.D0 u => 48 :: digits_of_uint u
  | Decimal.D1 u => 49 :: digits_of_uint u
  | Decimal.D2 u => 50 :: digits_of_uint u
  | Decimal.D3 u => 51 :: digits_of_uint u
  | Decimal.D4 u => 52 :: digits_of_uint u
  | Decimal.D5 u => 53 :: digits_of_uint u
  | Decimal.D6 u => 54 :: digits_of_uint u
  | Decimal.D7 u => 55 :: digits_of_uint u
  | Decimal.D8 u => 56 :: digits_of_uint u
  | Decimal.D9 u => 57 :: digits_of_uint u
  end.

(** [str(n)] for a non-negative [int]. *)
Definition str_of_N (n : N) : pystr := digits_of_uint (N.to_uint n).

(** [str(z)] for an [int]. *)
Definition str_of_int (z : Z) : pystr :=
  match z with
  | Z.neg p => 45 :: str_of_N (N.pos p)
  | _ => str_of_N (Z.to_N z)
  end.

(** ["%0<w>d" % n] for a non-negative [n]. *)
Definition zero_pad (w : nat) (n : N) : pystr :=
  let d := str_of_N n in
  repeat 48 (w - length d)%nat ++ d.

(** ** pathlib (POSIX flavour) *)

Record Path := mkPath { root : pystr; names : list pystr }.

#[global] Instance Path_eq_dec : EqDecision Path.
Proof. solve_decision. Defined.

(** [_PosixFlavour.splitroot]: one leading slash, or three or more, give
    the root "/"; exactly two give "//". *)
Definition splitroot (part : pystr) : pystr * pystr :=
  match part with
  | c :: _ =>
      if c =? SEP then
        let stripped := lstrip_sep part in
        if (length part - length stripped =? 2)%nat
        then ([SEP; SEP], stripped)
        else ([SEP], stripped)
      else ([], part)
  | [] => ([], part)
  end.

Definition is_component (x : pystr) : bool :=
  negb (pystr_eqb x []) && negb (pystr_eqb x [DOT]).

(** [Path(s)]: empty and "." components are dropped. *)
Definition Path_of_str (s : pystr) : Path :=
  let '(rt, rel) := splitroot s in
  mkPath rt (filter (fun x => is_component x = true) (split_sep rel)).

(** [str(p)] *)
Definition Path_str (p : Path) : pystr :=
  match root p, names p with
  | [], [] => [DOT]
  | rt, ns => rt ++ join [SEP] ns
  end.

(** [p.name]: the final component, empty for a bare anchor. *)
Definition name (p : Path) : pystr := default [] (last (names p)).

(** The test [0 < i < len(name) - 1] shared by [suffix] and [stem]. *)
Definition suffix_index (nm : pystr) : option nat :=
  match rfind DOT nm with
  | Some i => if ((0 <? i) && (i + 1 <? length nm))%nat then Some i else None
  | None => None
  end.

(** [p.suffix] *)
Definition suffix (p : Path) : pystr :=
  match suffix_index (name p) with
  | Some i => drop i (name p)
  | None => []
  end.

(** [p.stem] *)
Definition stem (p : Path) : pystr :=
  match suffix_index (name p) with
  | Some i => take i (name p)
  | None => name p
  end.

(** [p / s] *)
Definition joinpath (p : Path) (s : pystr) : Path :=
  let q := Path_of_str s in
  match root q with
  | [] => mkPath (root p) (names p ++ names q)
  | _ => q
  end.


(** ** Exceptions and results *)

Inductive exn :=
  | CalledProcessError (cmd : list pystr) (returncode : Z)
  | FileNotFoundError
  | FileExistsError
  | NotADirectoryError
  | IsADirectoryError
  | ValueError
  | IndexError
  | KeyError (key : pystr)
  | PermissionError
  | OSError.

Inductive result (A : Type) :=
  | Ok (a : A)
  | Raise (e : exn).
Arguments Ok {A} a.
Arguments Raise {A} e.

(** The status the interpreter exits with: 0 when [main] returns, 1 when
    an exception escapes it. *)
Definition exit_status (r : result unit) : Z :=
  match r with
  | Ok _ => 0
  | Raise _ => 1
  end.

(** [p.with_suffix(sfx)] *)
Definition with_suffix (p : Path) (sfx : pystr) : result Path :=
  if bool_decide (SEP ∈ sfx) then Raise ValueError
  else if (negb (pystr_eqb sfx []) && negb (pystr_eqb (take 1 sfx) [DOT]))
          || pystr_eqb sfx [DOT] then Raise ValueError
  else
    let nm := name p in
    if pystr_eqb nm [] then Raise ValueError
    else
      let old_suffix := suffix p in
      let nm' :=
        if pystr_eqb old_suffix [] then nm ++ sfx
        else take (length nm - length old_suffix) nm ++ sfx in
      Ok (mkPath (root p) (removelast (names p) ++ [nm'])).

(** An argument that the script passes on without looking at its type:
    a [str] or a [Path]. *)
Inductive pathlike :=
  | PStr (s : pystr)
  | PPath (p : Path).

(** [Path(x)] *)
Definition Path_of (x : pathlike) : Path :=
  match x with
  | PStr s => Path_of_str s
  | PPath p => p
  end.

(** [str(x)], also [os.fspath(x)] *)
Definition str_of (x : pathlike) : pystr :=
  match x with
  | PStr s => s
  | PPath p => Path_str p
  end.

(** ** The world: file system and trace *)

Inductive node :=
  | File (content : pystr)
  | Dir.

Inductive event :=
  | EvPrint (line : pystr)
  | EvRun (cmd : list pystr)
  | EvMkdir (path : pystr)
  | EvWrite (path : pystr) (content : pystr).

Record State := mkState {
  fs : gmap pystr node;
  trace : list event
}.

(** An error of the operating system that the tree does not explain. *)
Inductive os_fault :=
  | PermissionDenied
  | NameTooLong
  | OtherFault.

(** The exception class Python gives it. *)
Definition exn_of_fault (f : os_fault) : exn :=
  match f with
  | PermissionDenied => PermissionError
  | NameTooLong | OtherFault => OSError
  end.

(** The calls on the file system that may meet such an error. *)
Inductive os_call :=
  | OsStat (path : pystr)
  | OsMkdir (path : pystr)
  | OsOpen (path : pystr).

#[global] Instance os_call_eq_dec : EqDecision os_call.
Proof. solve_decision. Defined.

(** Launching a command line: the binary is missing, the launch fails for
    another reason (the file is not executable, for one), or the process
    runs and exits. *)
Inductive proc_outcome :=
  | NotFound
  | LaunchFailed (f : os_fault)
  | Exited (returncode : Z).

Record datetime := mkDatetime {
  year : N; month : N; day : N;
  hour : N; minute : N; second : N; microsecond : N
}.

(** What the script takes from its surroundings. [run_process] is the
    outcome of launching a command line and [process_effect] what the
    process, once running, does to the file system; [os_error] is the
    error, if any, that the operating system reports for a call beyond
    what the tree explains; [now] is the wall clock read by
    [datetime.now()]; [str_CalledProcessError] is the interpreter's text
    for [str(e)] of a [CalledProcessError], which quotes the command with
    [repr] and is not computed here. *)
Record Env := mkEnv {
  run_process : list pystr → proc_outcome;
  process_effect : list pystr → gmap pystr node → gmap pystr node;
  os_error : os_call → option os_fault;
  now : datetime;
  str_CalledProcessError : list pystr → Z → pystr
}.

Definition M (A : Type) : Type := State → result A * State.

#[global] Instance M_ret : MRet M := λ A a s, (Ok a, s).
#[global] Instance M_bind : MBind M := λ A B f m s,
  match m s with
  | (Ok a, s') => f a s'
  | (Raise e, s') => (Raise e, s')
  end.

Definition raise {A} (e : exn) : M A := λ s, (Raise e, s).

Definition lift {A} (r : result A) : M A := λ s, (r, s).

(** [try: body  except <the exceptions h accepts>: h e] *)
Definition try_except {A} (body : M A) (h : exn → option (M A)) : M A := λ s,
  match body s with
  | (Raise e, s') =>
      match h e with
      | Some handler => handler s'
      | None => (Raise e, s')
      end
  | r => r
  end.

Definition emit (e : event) (s : State) : State :=
  mkState (fs s) (trace s ++ [e]).

(** [print(line)] *)
Definition print (line : pystr) : M unit := λ s, (Ok tt, emit (EvPrint line) s).

(** The node a path names; a path without components is an anchor. *)
Definition node_at (s : State) (p : Path) : option node :=
  match names p with
  | [] => Some Dir
  | _ => fs s !! Path_str p
  end.

(** [p.parent] *)
Definition parent (p : Path) : Path := mkPath (root p) (removelast (names p)).

(** [p.exists()]: a missing entry gives [False]; any other error of
    [stat] is raised. *)
Definition Path_exists (env : Env) (p : Path) : M bool := λ s,
  match os_error env (OsStat (Path_str p)) with
  | Some f => (Raise (exn_of_fault f), s)
  | None => (Ok (bool_decide (is_Some (node_at s p))), s)
  end.

(** [p.mkdir(parents=True, exist_ok=True)]: walking down from the anchor,
    every missing directory is created and an existing one is accepted; a
    regular file on the way stops the walk. *)
Fixpoint mkdir_walk (env : Env) (rt : pystr) (above todo : list pystr) (s : State)
  : result unit * State :=
  match todo with
  | [] => (Ok tt, s)
  | n :: rest =>
      let q := Path_str (mkPath rt (above ++ [n])) in
      match fs s !! q with
      | Some (File _) =>
          (Raise (match rest with
                  | [] => FileExistsError
                  | _ => NotADirectoryError
                  end), s)
      | Some Dir => mkdir_walk env rt (above ++ [n]) rest s
      | None =>
          match os_error env (OsMkdir q) with
          | Some f => (Raise (exn_of_fault f), s)
          | None =>
              mkdir_walk env rt (above ++ [n]) rest
                (mkState (<[q := Dir]> (fs s)) (trace s ++ [EvMkdir q]))
          end
      end
  end.

Definition mkdir_parents_exist_ok (env : Env) (p : Path) : M unit :=
  mkdir_walk env (root p) [] (names p).

(** [with open(p, 'w') as f: f.write(text)]: the directory of [p] must
    exist and [p] must not be a directory; then, unless the operating
    system objects, the file is created or truncated and holds [text]. *)
Definition open_write (env : Env) (p : Path) (text : pystr) : M unit := λ s,
  match node_at s (parent p) with
  | None => (Raise FileNotFoundError, s)
  | Some (File _) => (Raise NotADirectoryError, s)
  | Some Dir =>
      match node_at s p with
      | Some Dir => (Raise IsADirectoryError, s)
      | _ =>
          match os_error env (OsOpen (Path_str p)) with
          | Some f => (Raise (exn_of_fault f), s)
          | None =>
              (Ok tt, mkState (<[Path_str p := File text]> (fs s))
                              (trace s ++ [EvWrite (Path_str p) text]))
          end
      end
  end.

(** [subprocess.run(cmd, check=check)], returning the exit status. A
    process that ran has had its effect on the file system, whatever its
    exit status. *)
Definition subprocess_run (env : Env) (cmd : list pystr) (check : bool) : M Z :=
  λ s,
  let s' := emit (EvRun cmd) s in
  match run_process env cmd with
  | NotFound => (Raise FileNotFoundError, s')
  | LaunchFailed f => (Raise (exn_of_fault f), s')
  | Exited rc =>
      let s'' := mkState (process_effect env cmd (fs s')) (trace s') in
      if check && negb (rc =? 0)%Z
      then (Raise (CalledProcessError cmd rc), s'')
      else (Ok rc, s'')
  end.

(** ** datetime and json *)

(** [d.isoformat()] of a naive datetime. *)
Definition isoformat (d : datetime) : pystr :=
  zero_pad 4 (year d) ++ lit "-" ++ zero_pad 2 (month d) ++ lit "-"
  ++ zero_pad 2 (day d) ++ lit "T" ++ zero_pad 2 (hour d) ++ lit ":"
  ++ zero_pad 2 (minute d) ++ lit ":" ++ zero_pad 2 (second d)
  ++ (if microsecond d =? 0 then [] else lit "." ++ zero_pad 6 (microsecond d)).

#[local] Set Warnings "-register-all".
Inductive json :=
  | JStr (s : pystr)
  | JInt (z : Z)
  | JList (items : list json)
  | JDict (items : list (pystr * json)).

Definition hex_digit (n : N) : N := if n <? 10 then 48 + n else 87 + n.

(** ['{0:04x}'.format(n)] for [n < 0x10000]. *)
Definition hex4 (n : N) : pystr :=
  [hex_digit (N.land (N.shiftr n 12) 15); hex_digit (N.land (N.shiftr n 8) 15);
   hex_digit (N.land (N.shiftr n 4) 15); hex_digit (N.land n 15)].

Definition BACKSLASH : N := 92.
Definition QUOTE : N := 34.

(** The replacement function of [py_encode_basestring_ascii]. *)
Definition escape_char (c : N) : pystr :=
  if c =? BACKSLASH then [BACKSLASH; BACKSLASH]
  else if c =? QUOTE then [BACKSLASH; QUOTE]
  else if (32 <=? c) && (c <=? 126) then [c]
  else if c =? 8 then BACKSLASH :: lit "b"
  else if c =? 12 then BACKSLASH :: lit "f"
  else if c =? 10 then BACKSLASH :: lit "n"
  else if c =? 13 then BACKSLASH :: lit "r"
  else if c =? 9 then BACKSLASH :: lit "t"
  else if c <? 65536 then BACKSLASH :: lit "u" ++ hex4 c
  else
    let n := c - 65536 in
    let s1 := N.lor 55296 (N.land (N.shiftr n 10) 1023) in
    let s2 := N.lor 56320 (N.land n 1023) in
    BACKSLASH :: lit "u" ++ hex4 s1 ++ BACKSLASH :: lit "u" ++ hex4 s2.

Definition encode_basestring_ascii (s : pystr) : pystr :=
  [QUOTE] ++ concat (map escape_char s) ++ [QUOTE].

(** [json.dumps(v, indent=indent)] at nesting depth [level]. *)
Fixpoint json_encode (indent level : nat) (v : json) : pystr :=
  let newline_indent := 10 :: repeat 32 (indent * S level)%nat in
  let closing := 10 :: repeat 32 (indent * level)%nat in
  match v with
  | JStr s => encode_basestring_ascii s
  | JInt z => str_of_int z
  | JList [] => lit "[]"
  | JList items =>
      lit "[" ++ newline_indent
      ++ join (44 :: newline_indent) (map (json_encode indent (S level)) items)
      ++ closing ++ lit "]"
  | JDict [] => lit "{}"
  | JDict items =>
      lit "{" ++ newline_indent
      ++ join (44 :: newline_indent)
           (map (λ kv, encode_basestring_ascii (fst kv) ++ lit ": "
                       ++ json_encode indent (S level) (snd kv)) items)
      ++ closing ++ lit "}"
  end.

Definition json_dumps (indent : nat) (v : json) : pystr := json_encode indent 0 v.

(** [c.encode("utf-8")] for one code point; surrogates are refused. *)
Definition utf8_encode_char (c : N) : option (list N) :=
  if c <? 128 then Some [c]
  else if c <? 2048 then
    Some [N.lor 192 (N.shiftr c 6); N.lor 128 (N.land c 63)]
  else if (55296 <=? c) && (c <=? 57343) then None
  else if c <? 65536 then
    Some [N.lor 224 (N.shiftr c 12); N.lor 128 (N.land (N.shiftr c 6) 63);
          N.lor 128 (N.land c 63)]
  else if c <? 1114112 then
    Some [N.lor 240 (N.shiftr c 18); N.lor 128 (N.land (N.shiftr c 12) 63);
          N.lor 128 (N.land (N.shiftr c 6) 63); N.lor 128 (N.land c 63)]
  else None.

(** [t.encode("utf-8")], as a list of byte values. *)
Fixpoint utf8_encode (t : pystr) : option (list N) :=
  match t with
  | [] => Some []
  | c :: rest =>
      match utf8_encode_char c, utf8_encode rest with
      | Some b, Some bs => Some (b ++ bs)
      | _, _ => None
      end
  end.


(** ** The script *)

(** The [tools] dictionary, in insertion order. *)
Definition tools : list (pystr * list pystr) :=
  [ (lit "ImageMagick", [lit "convert"; lit "--version"]);
    (lit "Ghostscript", [lit "gs"; lit "--version"]) ].

(** One iteration of the loop of [check_dependencies]. *)
Definition probe (env : Env) (available : gmap pystr bool)
    (tool : pystr * list pystr) : M (gmap pystr bool) :=
  let '(name, cmd) := tool in
  try_except
    (subprocess_run env cmd true;;
     let available := <[name := true]> available in
     print ([CHECK_MARK] ++ lit " " ++ name ++ lit " is installed");;
     mret available)
    (λ e, match e with
          | CalledProcessError _ _ | FileNotFoundError =>
              Some (let available := <[name := false]> available in
                    print ([BALLOT_X] ++ lit " " ++ name ++ lit " is not installed");;
                    mret available)
          | _ => None
          end).

(** [for x in l: acc = body acc x] *)
Fixpoint for_each {A B} (body : B → A → M B) (l : list A) (acc : B) : M B :=
  match l with
  | [] => mret acc
  | x :: rest => acc' ← body acc x; for_each body rest acc'
  end.

Definition check_dependencies (env : Env) : M (gmap pystr bool) :=
  for_each (probe env) tools ∅.

(** One line of the AppleScript template: indentation, text, line feed. *)
Definition script_line (indent : nat) (text : pystr) : pystr :=
  repeat 32 indent ++ text ++ [10].

Definition quoted (s : pystr) : pystr := [QUOTE] ++ s ++ [QUOTE].

(** The f-string [applescript]: both paths are substituted as they are. *)
Definition applescript (pptx_path output_path : pathlike) : pystr :=
  [10]
  ++ script_line 4 (lit "tell application " ++ quoted (lit "Preview"))
  ++ script_line 8 (lit "open POSIX file " ++ quoted (str_of pptx_path))
  ++ script_line 8 (lit "delay 2")
  ++ script_line 8 []
  ++ script_line 8 (lit "tell application " ++ quoted (lit "System Events"))
  ++ script_line 12 (lit "keystroke " ++ quoted (lit "p") ++ lit " using command down")
  ++ script_line 12 (lit "delay 1")
  ++ script_line 12 []
  ++ script_line 12 (lit "click button " ++ quoted (lit "PDF")
                     ++ lit " of sheet 1 of window 1 of process " ++ quoted (lit "Preview"))
  ++ script_line 12 (lit "delay 0.5")
  ++ script_line 12 []
  ++ script_line 12 (lit "click menu item " ++ quoted (lit "Save as PDF")
                     ++ lit " of menu 1 of button " ++ quoted (lit "PDF")
                     ++ lit " of sheet 1 of window 1 of process " ++ quoted (lit "Preview"))
  ++ script_line 12 (lit "delay 1")
  ++ script_line 12 []
  ++ script_line 12 (lit "keystroke " ++ quoted (str_of output_path))
  ++ script_line 12 (lit "delay 0.5")
  ++ script_line 12 []
  ++ script_line 12 (lit "click button " ++ quoted (lit "Save")
                     ++ lit " of sheet 1 of window 1 of process " ++ quoted (lit "Preview"))
  ++ script_line 12 (lit "delay 2")
  ++ script_line 8 (lit "end tell")
  ++ script_line 8 []
  ++ script_line 8 (lit "quit")
  ++ script_line 4 (lit "end tell")
  ++ repeat 32 4.

Definition pptx_to_pdf_with_preview (env : Env) (pptx_path output_path : pathlike)
  : M unit :=
  let applescript := applescript pptx_path output_path in
  subprocess_run env [lit "osascript"; lit "-e"; applescript] false;;
  mret tt.

Definition convert_cmd (pdf_path : pathlike) (output_dir : Path) (dpi : Z)
  : list pystr :=
  [ lit "convert";
    lit "-density"; str_of_int dpi;
    lit "-quality"; lit "100";
    str_of pdf_path;
    Path_str (joinpath output_dir (lit "slide-%d.png")) ].

Definition pdf_to_images (env : Env) (pdf_path output_dir : pathlike) (dpi : Z)
  : M unit :=
  let output_dir := Path_of output_dir in
  mkdir_parents_exist_ok env output_dir;;
  let cmd := convert_cmd pdf_path output_dir dpi in
  try_except
    (subprocess_run env cmd true;;
     print ([CHECK_MARK] ++ lit " Converted PDF to images in " ++ Path_str output_dir))
    (λ e, match e with
          | CalledProcessError c rc =>
              Some (print ([BALLOT_X] ++ lit " Failed to convert PDF: "
                           ++ str_CalledProcessError env c rc))
          | _ => None
          end).

(** The [metadata] dictionary, in insertion order. *)
Definition metadata (env : Env) (pptx_path : pathlike) : list (pystr * json) :=
  [ (lit "source", JStr (str_of pptx_path));
    (lit "generated", JStr (isoformat (now env)));
    (lit "method", JStr (lit "manual"));
    (lit "dpi", JInt 300);
    (lit "slides", JList []) ].

Definition generate_reference_data (env : Env) (pptx_path : pathlike) : M unit :=
  let metadata := metadata env pptx_path in
  output_path ← lift (with_suffix (Path_of pptx_path) (lit ".json"));
  open_write env output_path (json_dumps 2 (JDict metadata));;
  print ([CHECK_MARK] ++ lit " Generated metadata: " ++ Path_str output_path).

(** [l[i]] *)
Definition list_getitem (l : list pystr) (i : nat) : M pystr :=
  match l !! i with
  | Some x => mret x
  | None => raise IndexError
  end.

(** [d[k]] *)
Definition dict_getitem (d : gmap pystr bool) (k : pystr) : M bool :=
  match d !! k with
  | Some x => mret x
  | None => raise (KeyError k)
  end.

Definition main (env : Env) (argv : list pystr) : M unit :=
  print (lit "PPTX Test Reference Generator");;
  print (concat (repeat (lit "=") 40));;
  deps ← check_dependencies env;
  if (length argv <? 2)%nat then
    print (10 :: lit "Usage: python3 generate_test_references.py <pptx_file>");;
    print (10 :: lit "This script demonstrates how to generate reference images");;
    print (lit "when LibreOffice is not available.")
  else
    arg ← list_getitem argv 1;
    let pptx_path := Path_of_str arg in
    found ← Path_exists env pptx_path;
    if negb found then
      print (lit "Error: File not found: " ++ Path_str pptx_path)
    else
      let output_dir := joinpath (Path_of_str (lit "tests/references")) (stem pptx_path) in
      mkdir_parents_exist_ok env output_dir;;
      print (10 :: lit "Processing: " ++ Path_str pptx_path);;
      print (lit "Output directory: " ++ Path_str output_dir);;
      generate_reference_data env (PPath pptx_path);;
      print (10 :: lit "LibreOffice command (if available):");;
      print (lit "soffice --headless --convert-to pdf --outdir "
             ++ Path_str output_dir ++ lit " " ++ Path_str pptx_path);;
      has_convert ← dict_getitem deps (lit "ImageMagick");
      (if has_convert : bool then
         print (10 :: lit "To convert existing PDFs to images:");;
         print (lit "convert -density 300 <pdf_file> " ++ Path_str output_dir
                ++ lit "/slide-%d.png")
       else mret tt);;
      print (10 :: [CHECK_MARK] ++ lit " Reference generation setup complete").

(** ** Vocabulary of the statements *)

Definition convert_version : list pystr := [lit "convert"; lit "--version"].
Definition gs_version : list pystr := [lit "gs"; lit "--version"].

(** A tool counts as available when its version query exits with 0. *)
Definition outcome_available (o : proc_outcome) : bool :=
  match o with
  | Exited rc => (rc =? 0)%Z
  | _ => false
  end.

Definition status_line (name : pystr) (ok : bool) : pystr :=
  if ok then [CHECK_MARK] ++ lit " " ++ name ++ lit " is installed"
  else [BALLOT_X] ++ lit " " ++ name ++ lit " is not installed".

Definition deps_of (env : Env) : gmap pystr bool :=
  <[lit "Ghostscript" := outcome_available (run_process env gs_version)]>
    (<[lit "ImageMagick" := outcome_available (run_process env convert_version)]> ∅).

Definition deps_trace (env : Env) : list event :=
  [ EvRun convert_version;
    EvPrint (status_line (lit "ImageMagick")
               (outcome_available (run_process env convert_version)));
    EvRun gs_version;
    EvPrint (status_line (lit "Ghostscript")
               (outcome_available (run_process env gs_version))) ].

(** The path texts visited by [mkdir_walk], top down. *)
Fixpoint chain_from (rt : pystr) (above todo : list pystr) : list pystr :=
  match todo with
  | [] => []
  | n :: rest =>
      Path_str (mkPath rt (above ++ [n])) :: chain_from rt (above ++ [n]) rest
  end.

(** A path's own text preceded by those of its ancestors below the anchor. *)
Definition dir_chain (p : Path) : list pystr := chain_from (root p) [] (names p).

Definition is_file (m : gmap pystr node) (q : pystr) : bool :=
  match m !! q with
  | Some (File _) => true
  | _ => false
  end.

(** No regular file sits at the path or at one of its ancestors. *)
Definition creatable (s : State) (p : Path) : bool :=
  forallb (λ q, negb (is_file (fs s) q)) (dir_chain p).

Definition add_dirs (chain : list pystr) (m : gmap pystr node) : gmap pystr node :=
  fold_left (λ m q, <[q := Dir]> m) chain m.

Definition runs (t : list event) : list (list pystr) :=
  omap (λ e, match e with EvRun c => Some c | _ => None end) t.

(** The text of a path in front of its final component. *)
Definition dir_prefix (init : list pystr) : pystr :=
  concat (map (λ x, x ++ [SEP]) init).

Definition REFERENCES : Path := Path_of_str (lit "tests/references").

(** The path the writer derives: the final component is the stem followed
    by ".json". *)
Definition json_path (p : Path) : Path :=
  mkPath (root p) (removelast (names p) ++ [stem p ++ lit ".json"]).

Definition metadata_text (env : Env) (x : pathlike) : pystr :=
  json_dumps 2 (JDict (metadata env x)).

Definition generated_line (out : Path) : pystr :=
  [CHECK_MARK] ++ lit " Generated metadata: " ++ Path_str out.

Definition header : list event :=
  [ EvPrint (lit "PPTX Test Reference Generator");
    EvPrint (concat (repeat (lit "=") 40)) ].

Definition usage_lines : list event :=
  [ EvPrint (10 :: lit "Usage: python3 generate_test_references.py <pptx_file>");
    EvPrint (10 :: lit "This script demonstrates how to generate reference images");
    EvPrint (lit "when LibreOffice is not available.") ].

Definition not_found_line (p : Path) : event :=
  EvPrint (lit "Error: File not found: " ++ Path_str p).

(** [tests/references/<stem>] *)
Definition output_dir_of (p : Path) : Path := joinpath REFERENCES (stem p).

Definition processing_lines (p : Path) : list event :=
  [ EvPrint (10 :: lit "Processing: " ++ Path_str p);
    EvPrint (lit "Output directory: " ++ Path_str (output_dir_of p)) ].

Definition closing_lines (env : Env) (p : Path) : list event :=
  [ EvPrint (10 :: lit "LibreOffice command (if available):");
    EvPrint (lit "soffice --headless --convert-to pdf --outdir "
             ++ Path_str (output_dir_of p) ++ lit " " ++ Path_str p) ]
  ++ (if outcome_available (run_process env convert_version)
      then [ EvPrint (10 :: lit "To convert existing PDFs to images:");
             EvPrint (lit "convert -density 300 <pdf_file> "
                      ++ Path_str (output_dir_of p) ++ lit "/slide-%d.png") ]
      else [])
  ++ [ EvPrint (10 :: [CHECK_MARK] ++ lit " Reference generation setup complete") ].

(** The state in which the argument check starts. *)
Definition after_probe (env : Env) (s : State) : State :=
  mkState (fs s) (trace s ++ header ++ deps_trace env).

(** An example environment: ImageMagick answers its version query,
    Ghostscript is not installed. *)
Definition example_env : Env :=
  mkEnv (λ cmd, if bool_decide (cmd = convert_version) then Exited 0 else NotFound)
        (λ _ m, m)
        (λ _, None)
        (mkDatetime 2024 3 9 14 5 6 0)
        (λ _ rc, lit "exit status " ++ str_of_int rc).

(** The same surroundings with other answers to command lines. *)
Definition with_processes (env : Env) (run : list pystr → proc_outcome) : Env :=
  mkEnv run (process_effect env) (os_error env) (now env) (str_CalledProcessError env).

(** The operating system reports no error beyond what the tree explains. *)
Definition os_quiet (env : Env) : Prop := ∀ c, os_error env c = None.

(** The command can be launched, or its binary is missing. *)
Definition launches (env : Env) (cmd : list pystr) : Prop :=
  ∀ f, run_process env cmd ≠ LaunchFailed f.

(** The command, when it runs, leaves the file system as it is. *)
Definition read_only (env : Env) (cmd : list pystr) : Prop :=
  ∀ m, process_effect env cmd m = m.

(** The two version queries report and do nothing else. *)
Definition probe_read_only (env : Env) : Prop :=
  read_only env convert_version ∧ read_only env gs_version.

Definition probe_benign (env : Env) : Prop :=
  launches env convert_version ∧ launches env gs_version ∧ probe_read_only env.

(** An example file system holding one slide deck. *)
Definition example_state : State :=
  mkState (<[lit "decks/talk.pptx" := File (lit "PK")]> (<[lit "decks" := Dir]> ∅)) [].

Definition is_ascii (t : pystr) : bool := forallb (λ c, c <? 128) t.

(** One member of the object, at indentation two. *)
Definition member_line (key : string) (value : pystr) : pystr :=
  lit "  " ++ [QUOTE] ++ lit key ++ [QUOTE] ++ lit ": " ++ value.

Definition metadata_layout (source generated : pystr) : pystr :=
  lit "{" ++ [10]
  ++ member_line "source" (encode_basestring_ascii source) ++ lit "," ++ [10]
  ++ member_line "generated" (encode_basestring_ascii generated) ++ lit "," ++ [10]
  ++ member_line "method" ([QUOTE] ++ lit "manual" ++ [QUOTE]) ++ lit "," ++ [10]
  ++ member_line "dpi" (lit "300") ++ lit "," ++ [10]
  ++ member_line "slides" (lit "[]") ++ [10]
  ++ lit "}".

(** The events the default flow may add for the input [p]: printed lines,
    the two version queries, the creation of the output directory and its
    ancestors, and the write of the metadata file. *)
Definition default_flow_event (env : Env) (p : Path) (e : event) : Prop :=
  match e with
  | EvPrint _ => True
  | EvRun cmd => cmd = [lit "convert"; lit "--version"] ∨ cmd = [lit "gs"; lit "--version"]
  | EvMkdir q => q ∈ dir_chain (output_dir_of p)
  | EvWrite q text =>
      q = Path_str (json_path p) ∧ text = metadata_text env (PPath p)
  end.

Definition converted_line (output_dir : Path) : pystr :=
  [CHECK_MARK] ++ lit " Converted PDF to images in " ++ Path_str output_dir.

Definition failed_line (env : Env) (cmd : list pystr) (rc : Z) : pystr :=
  [BALLOT_X] ++ lit " Failed to convert PDF: " ++ str_CalledProcessError env cmd rc.

(** Printable ASCII, the characters ' ' to '~'. *)
Definition is_printable (t : pystr) : bool :=
  forallb (λ c, (32 <=? c) && (c <=? 126)) t.

(** The number of line feeds of a text. *)
Definition line_feeds (t : pystr) : nat := count_occ N.eq_dec t 10.

(** What a command does to the file system when it is launched: its
    effect if it runs, nothing otherwise. *)
Definition effect_if_run (env : Env) (cmd : list pystr) (m : gmap pystr node)
  : gmap pystr node :=
  match run_process env cmd with
  | Exited _ => process_effect env cmd m
  | _ => m
  end.

(** pathlib's split of a final component into stem and suffix, in the
    words of its documentation: the suffix starts at the last dot,
    provided that dot is neither the first nor the last character of the
    component; otherwise the component has no suffix. *)
Inductive stem_suffix_of : pystr → pystr → pystr → Prop :=
  | with_extension base ext :
      base ≠ [] → ext ≠ [] → DOT ∉ ext →
      stem_suffix_of (base ++ DOT :: ext) base (DOT :: ext)
  | without_extension nm :
      (∀ base ext, nm = base ++ DOT :: ext → DOT ∉ ext → base = [] ∨ ext = []) →
      stem_suffix_of nm nm [].

(** The entry point from the argument check on, given the prober's
    result. *)
Definition main_rest (env : Env) (argv : list pystr) (deps : gmap pystr bool) : M unit :=
  if (length argv <? 2)%nat then
    print (10 :: lit "Usage: python3 generate_test_references.py <pptx_file>");;
    print (10 :: lit "This script demonstrates how to generate reference images");;
    print (lit "when LibreOffice is not available.")
  else
    arg ← list_getitem argv 1;
    let pptx_path := Path_of_str arg in
    found ← Path_exists env pptx_path;
    if negb found then
      print (lit "Error: File not found: " ++ Path_str pptx_path)
    else
      let output_dir := joinpath (Path_of_str (lit "tests/references")) (stem pptx_path) in
      mkdir_parents_exist_ok env output_dir;;
      print (10 :: lit "Processing: " ++ Path_str pptx_path);;
      print (lit "Output directory: " ++ Path_str output_dir);;
      generate_reference_data env (PPath pptx_path);;
      print (10 :: lit "LibreOffice command (if available):");;
      print (lit "soffice --headless --convert-to pdf --outdir "
             ++ Path_str output_dir ++ lit " " ++ Path_str pptx_path);;
      has_convert ← dict_getitem deps (lit "ImageMagick");
      (if has_convert : bool then
         print (10 :: lit "To convert existing PDFs to images:");;
         print (lit "convert -density 300 <pdf_file> " ++ Path_str output_dir
                ++ lit "/slide-%d.png")
       else mret tt);;
      print (10 :: [CHECK_MARK] ++ lit " Reference generation setup complete").

(** The same surroundings with other operating-system errors. *)
Definition with_os_errors (env : Env) (err : os_call → option os_fault) : Env :=
  mkEnv (run_process env) (process_effect env) err (now env) (str_CalledProcessError env).

(** * Properties *)

(** ** Running computations *)

Ltac run_step :=
  unfold mbind, M_bind, mret, M_ret, raise, lift, print, emit; simpl.

Lemma bind_ok {A B} (m : M A) (k : A → M B) s a s' :
  m s = (Ok a, s') → (m ≫= k) s = k a s'.
Proof. intros H. unfold mbind, M_bind. by rewrite H. Qed.

Lemma bind_raise {A B} (m : M A) (k : A → M B) s e s' :
  m s = (Raise e, s') → (m ≫= k) s = (Raise e, s').
Proof. intros H. unfold mbind, M_bind. by rewrite H. Qed.

(** ** The dependency prober *)

(** One probe, in every case. *)
Lemma probe_unfold env available name cmd s :
  probe env available (name, cmd) s =
  match run_process env cmd with
  | LaunchFailed f => (Raise (exn_of_fault f), mkState (fs s) (trace s ++ [EvRun cmd]))
  | o =>
      (Ok (<[name := outcome_available o]> available),
       mkState (effect_if_run env cmd (fs s))
         (trace s ++ [EvRun cmd; EvPrint (status_line name (outcome_available o))]))
  end.
Proof.
  unfold probe, try_except, subprocess_run, effect_if_run. run_step.
  destruct (run_process env cmd) as [|f|rc]; simpl.
  - by rewrite <- app_assoc.
  - by destruct f.
  - destruct (rc =? 0)%Z; simpl; by rewrite <- app_assoc.
Qed.

Lemma probe_spec env available name cmd s :
  launches env cmd →
  read_only env cmd →
  probe env available (name, cmd) s =
  (Ok (<[name := outcome_available (run_process env cmd)]> available),
   mkState (fs s)
     (trace s ++ [EvRun cmd;
                  EvPrint (status_line name (outcome_available (run_process env cmd)))])).
Proof.
  intros Hl Hro. rewrite probe_unfold. unfold effect_if_run.
  destruct (run_process env cmd) as [|f|rc] eqn:E; [done| |by rewrite Hro].
  by destruct (Hl f).
Qed.

Lemma check_dependencies_spec env s :
  probe_benign env →
  check_dependencies env s =
  (Ok (deps_of env), mkState (fs s) (trace s ++ deps_trace env)).
Proof.
  intros (Hl1 & Hl2 & Hr1 & Hr2). unfold check_dependencies, tools, for_each.
  rewrite (bind_ok _ _ _ _ _ (probe_spec _ _ _ _ _ Hl1 Hr1)).
  rewrite (bind_ok _ _ _ _ _ (probe_spec _ _ _ _ _ Hl2 Hr2)).
  run_step. by rewrite <- app_assoc.
Qed.

(** The prober in every environment: it raises exactly when a version
    query cannot be launched for a reason other than a missing binary. *)
Lemma check_dependencies_cases env s :
  (∃ s', check_dependencies env s = (Ok (deps_of env), s')
         ∧ trace s' = trace s ++ deps_trace env
         ∧ fs s' = effect_if_run env gs_version (effect_if_run env convert_version (fs s))
         ∧ launches env convert_version ∧ launches env gs_version)
  ∨ (∃ f s' t, check_dependencies env s = (Raise (exn_of_fault f), s')
               ∧ (run_process env convert_version = LaunchFailed f
                  ∨ run_process env gs_version = LaunchFailed f)
               ∧ trace s' = trace s ++ t
               ∧ (runs t = [convert_version] ∨ runs t = [convert_version; gs_version])
               ∧ Forall (λ e, match e with
                              | EvPrint _ => True
                              | EvRun c => c = convert_version ∨ c = gs_version
                              | _ => False
                              end) t
               ∧ (fs s' = fs s ∨ fs s' = effect_if_run env convert_version (fs s))).
Proof.
  unfold check_dependencies, tools, for_each.
  pose proof (probe_unfold env ∅ (lit "ImageMagick") convert_version s) as H1.
  fold convert_version gs_version.
  destruct (run_process env convert_version) as [|f|rc] eqn:E1.
  - rewrite (bind_ok _ _ _ _ _ H1).
    set (s1 := mkState _ _).
    pose proof (probe_unfold env (<[lit "ImageMagick" := false]> ∅)
                  (lit "Ghostscript") gs_version s1) as H2.
    destruct (run_process env gs_version) as [|f|rc] eqn:E2.
    + left. rewrite (bind_ok _ _ _ _ _ H2). eexists. split.
      { unfold deps_of. rewrite E1, E2. reflexivity. }
      subst s1. cbn [trace fs]. unfold deps_trace. rewrite E1, E2.
      split; [by rewrite <- app_assoc|].
      split; [unfold effect_if_run; by rewrite E1, E2|].
      split; intros f'; congruence.
    + right. rewrite (bind_raise _ _ _ _ _ H2). eexists f, _, _.
      split; [done|]. split; [by right|]. subst s1. cbn [trace fs].
      split; [by rewrite <- app_assoc|]. split; [by right|].
      split; [|by right].
      repeat (apply Forall_cons; split; [simpl; auto|]). apply Forall_nil_2.
    + left. rewrite (bind_ok _ _ _ _ _ H2). eexists. split.
      { unfold deps_of. rewrite E1, E2. reflexivity. }
      subst s1. cbn [trace fs]. unfold deps_trace. rewrite E1, E2.
      split; [by rewrite <- app_assoc|].
      split; [unfold effect_if_run; by rewrite E1, E2|].
      split; intros f'; congruence.
  - right. rewrite (bind_raise _ _ _ _ _ H1). eexists f, _, _.
    split; [done|]. split; [by left|]. cbn [trace fs].
    split; [done|]. split; [by left|]. split; [|by left].
    repeat (apply Forall_cons; split; [simpl; auto|]). apply Forall_nil_2.
  - rewrite (bind_ok _ _ _ _ _ H1).
    set (s1 := mkState _ _).
    pose proof (probe_unfold env (<[lit "ImageMagick" := (rc =? 0)%Z]> ∅)
                  (lit "Ghostscript") gs_version s1) as H2.
    destruct (run_process env gs_version) as [|f|rc2] eqn:E2.
    + left. rewrite (bind_ok _ _ _ _ _ H2). eexists. split.
      { unfold deps_of. rewrite E1, E2. reflexivity. }
      subst s1. cbn [trace fs]. unfold deps_trace. rewrite E1, E2.
      split; [by rewrite <- app_assoc|].
      split; [unfold effect_if_run; by rewrite E1, E2|].
      split; intros f'; congruence.
    + right. rewrite (bind_raise _ _ _ _ _ H2). eexists f, _, _.
      split; [done|]. split; [by right|]. subst s1. cbn [trace fs].
      split; [by rewrite <- app_assoc|]. split; [by right|].
      split; [|by right; unfold effect_if_run; rewrite E1].
      repeat (apply Forall_cons; split; [simpl; auto|]). apply Forall_nil_2.
    + left. rewrite (bind_ok _ _ _ _ _ H2). eexists. split.
      { unfold deps_of. rewrite E1, E2. reflexivity. }
      subst s1. cbn [trace fs]. unfold deps_trace. rewrite E1, E2.
      split; [by rewrite <- app_assoc|].
      split; [unfold effect_if_run; by rewrite E1, E2|].
      split; intros f'; congruence.
Qed.

(** ** Directory creation *)

Lemma add_dirs_lookup chain m q :
  add_dirs chain m !! q = if bool_decide (q ∈ chain) then Some Dir else m !! q.
Proof.
  revert m. induction chain as [|c chain IH]; intros m.
  - rewrite bool_decide_eq_false_2; [done|]. apply not_elem_of_nil.
  - change (add_dirs (c :: chain) m) with (add_dirs chain (<[c := Dir]> m)).
    rewrite IH. destruct (decide (q ∈ chain)) as [Hin|Hin].
    + rewrite !bool_decide_eq_true_2; [done| |done].
      apply elem_of_cons. by right.
    + rewrite (bool_decide_eq_false_2 _ Hin).
      destruct (decide (q = c)) as [->|Hne].
      * rewrite lookup_insert_eq, bool_decide_eq_true_2; [done|].
        apply elem_of_cons. by left.
      * rewrite lookup_insert_ne by done.
        rewrite bool_decide_eq_false_2; [done|].
        intros [?|?]%elem_of_cons; done.
Qed.

Lemma is_file_insert_dir m q q' :
  is_file m q' = false → is_file (<[q := Dir]> m) q' = false.
Proof.
  unfold is_file. destruct (decide (q = q')) as [->|Hne].
  - by rewrite lookup_insert_eq.
  - by rewrite lookup_insert_ne.
Qed.

Lemma mkdir_walk_ok env rt above todo s :
  os_quiet env →
  forallb (λ q, negb (is_file (fs s) q)) (chain_from rt above todo) = true →
  ∃ created,
    mkdir_walk env rt above todo s =
      (Ok tt, mkState (add_dirs (chain_from rt above todo) (fs s))
                      (trace s ++ map EvMkdir created))
    ∧ Forall (λ q, q ∈ chain_from rt above todo) created.
Proof.
  intros Hq0. revert above s.
  induction todo as [|n rest IH]; intros above s Hok; simpl in *.
  - exists []. destruct s. simpl. by rewrite app_nil_r.
  - apply andb_true_iff in Hok as [Hq Hrest]. unfold is_file in Hq.
    destruct (fs s !! Path_str (mkPath rt (above ++ [n]))) as [[c|]|] eqn:E;
      [done| |].
    + destruct (IH (above ++ [n]) s Hrest) as (created & -> & Hin).
      exists created. split.
      * by rewrite (insert_id _ _ _ E).
      * eapply Forall_impl; [exact Hin|]. intros q' ?. apply elem_of_cons. by right.
    + rewrite Hq0. set (s1 := mkState _ _).
      destruct (IH (above ++ [n]) s1) as (created & -> & Hin).
      { subst s1. simpl. apply forallb_forall. intros q' Hq'.
        apply negb_true_iff, is_file_insert_dir, negb_true_iff.
        by eapply forallb_forall in Hrest. }
      exists (Path_str (mkPath rt (above ++ [n])) :: created). split.
      * subst s1. simpl. by rewrite <- app_assoc.
      * constructor; [apply elem_of_cons; by left|].
        eapply Forall_impl; [exact Hin|]. intros q' ?. apply elem_of_cons. by right.
Qed.

Lemma mkdir_walk_blocked env rt above todo s :
  forallb (λ q, negb (is_file (fs s) q)) (chain_from rt above todo) = false →
  ∃ e s', mkdir_walk env rt above todo s = (Raise e, s').
Proof.
  revert above s. induction todo as [|n rest IH]; intros above s Hbad; simpl in *.
  - done.
  - unfold is_file in Hbad at 1.
    destruct (fs s !! Path_str (mkPath rt (above ++ [n]))) as [[c|]|] eqn:E.
    + eauto.
    + simpl in Hbad. by apply IH.
    + destruct (os_error env _); [eauto|].
      simpl in Hbad. apply IH. simpl.
      apply not_true_iff_false. intros Hall. apply not_true_iff_false in Hbad.
      apply Hbad, forallb_forall. intros q' Hq'.
      eapply forallb_forall in Hall; [|exact Hq'].
      apply negb_true_iff in Hall. apply negb_true_iff.
      unfold is_file in *.
      destruct (decide (Path_str (mkPath rt (above ++ [n])) = q')) as [<-|Hne].
      * by rewrite E.
      * by rewrite lookup_insert_ne in Hall.
Qed.

(** Whatever the outcome, a walk only adds directory-creation events, and
    only for paths of its chain. *)
Lemma mkdir_walk_trace env rt above todo s :
  ∃ created,
    trace (mkdir_walk env rt above todo s).2 = trace s ++ map EvMkdir created
    ∧ Forall (λ q, q ∈ chain_from rt above todo) created.
Proof.
  revert above s. induction todo as [|n rest IH]; intros above s; simpl.
  - exists []. by rewrite app_nil_r.
  - destruct (fs s !! Path_str (mkPath rt (above ++ [n]))) as [[c|]|] eqn:E.
    + exists []. simpl. by rewrite app_nil_r.
    + destruct (IH (above ++ [n]) s) as (created & -> & Hin).
      exists created. split; [done|].
      eapply Forall_impl; [exact Hin|]. intros q' ?. apply elem_of_cons. by right.
    + destruct (os_error env _).
      { exists []. simpl. by rewrite app_nil_r. }
      set (s1 := mkState _ _).
      destruct (IH (above ++ [n]) s1) as (created & -> & Hin).
      exists (Path_str (mkPath rt (above ++ [n])) :: created). split.
      * subst s1. simpl. by rewrite <- app_assoc.
      * constructor; [apply elem_of_cons; by left|].
        eapply Forall_impl; [exact Hin|]. intros q' ?. apply elem_of_cons. by right.
Qed.

Lemma mkdir_ok env p s :
  os_quiet env →
  creatable s p = true →
  ∃ created,
    mkdir_parents_exist_ok env p s =
      (Ok tt, mkState (add_dirs (dir_chain p) (fs s)) (trace s ++ map EvMkdir created))
    ∧ Forall (λ q, q ∈ dir_chain p) created.
Proof. apply mkdir_walk_ok. Qed.

Lemma mkdir_blocked env p s :
  creatable s p = false → ∃ e s', mkdir_parents_exist_ok env p s = (Raise e, s').
Proof. apply mkdir_walk_blocked. Qed.


(** ** Paths *)

Lemma split_sep_nonempty s : split_sep s ≠ [].
Proof.
  destruct s as [|c t]; simpl; [done|].
  destruct (c =? SEP); [done|]. by destruct (split_sep t).
Qed.

Lemma split_sep_no_sep s : Forall (λ x, SEP ∉ x) (split_sep s).
Proof.
  induction s as [|c t IH]; simpl.
  - constructor; [apply not_elem_of_nil | constructor].
  - destruct (c =? SEP) eqn:E.
    + constructor; [apply not_elem_of_nil | done].
    + apply N.eqb_neq in E. destruct (split_sep t) as [|h r].
      * constructor; [|constructor].
        intros [?|?%not_elem_of_nil]%elem_of_cons; congruence.
      * inversion IH as [|? ? Hh Hr]; subst. constructor; [|done].
        intros [?|?]%elem_of_cons; [congruence | done].
Qed.

Lemma split_sep_single x : SEP ∉ x → split_sep x = [x].
Proof.
  induction x as [|c t IH]; intros Hx; simpl; [done|].
  destruct (c =? SEP) eqn:E.
  - apply N.eqb_eq in E. subst. exfalso. apply Hx, elem_of_cons. by left.
  - rewrite IH; [done|]. intros ?. apply Hx, elem_of_cons. by right.
Qed.

Lemma Path_of_str_root s :
  root (Path_of_str s) = [] ∨ root (Path_of_str s) = [SEP]
  ∨ root (Path_of_str s) = [SEP; SEP].
Proof.
  unfold Path_of_str, splitroot. destruct s as [|c t]; simpl; [by left|].
  destruct (c =? SEP); [|by left].
  destruct (_ =? 2)%nat; simpl; auto.
Qed.

Lemma Path_of_str_names s :
  Forall (λ x, (SEP ∉ x) ∧ x ≠ []) (names (Path_of_str s)).
Proof.
  unfold Path_of_str. destruct (splitroot s) as [rt rel]. simpl.
  apply Forall_forall. intros x [Hc Hx]%list_elem_of_filter. split.
  - pose proof (split_sep_no_sep rel) as H.
    by eapply Forall_forall in H.
  - intros ->. done.
Qed.

Lemma Path_of_str_simple x :
  SEP ∉ x →
  Path_of_str x = mkPath [] (if is_component x then [x] else []).
Proof.
  intros Hx. unfold Path_of_str.
  assert (splitroot x = ([], x)) as ->.
  { destruct x as [|c t]; [done|]. simpl.
    destruct (c =? SEP) eqn:E; [|done].
    apply N.eqb_eq in E. subst. exfalso. apply Hx, elem_of_cons. by left. }
  rewrite split_sep_single by done. simpl.
  destruct (is_component x) eqn:E.
  - by rewrite filter_cons_True.
  - rewrite filter_cons_False; [done|]. by rewrite E.
Qed.

Lemma name_in_names p : name p ≠ [] → name p ∈ names p.
Proof.
  unfold name. destruct (last (names p)) as [x|] eqn:E; simpl; [|done].
  intros _. apply last_Some in E as [l' ->].
  apply elem_of_app. right. apply elem_of_cons. by left.
Qed.

Lemma names_snoc p :
  name p ≠ [] → names p = removelast (names p) ++ [name p].
Proof.
  unfold name. destruct (last (names p)) as [x|] eqn:E; simpl; [|done].
  intros _. apply last_Some in E as [l' E]. rewrite E.
  by rewrite removelast_last.
Qed.

Lemma suffix_index_bounds nm i :
  suffix_index nm = Some i → (0 < i ∧ i + 1 < length nm)%nat.
Proof.
  unfold suffix_index. destruct (rfind DOT nm) as [j|]; [|done].
  destruct ((0 <? j)%nat && (j + 1 <? length nm)%nat) eqn:E; [|done].
  intros [= <-]. apply andb_true_iff in E as [?%Nat.ltb_lt ?%Nat.ltb_lt]. lia.
Qed.

(** [name == stem + suffix] *)
Lemma stem_suffix p : name p = stem p ++ suffix p.
Proof.
  unfold stem, suffix. destruct (suffix_index (name p)).
  - by rewrite take_drop.
  - by rewrite app_nil_r.
Qed.

Lemma stem_nonempty p : name p ≠ [] → stem p ≠ [].
Proof.
  unfold stem. destruct (suffix_index (name p)) as [i|] eqn:E; [|done].
  apply suffix_index_bounds in E. intros _ H%(f_equal length).
  rewrite length_take in H. simpl in H. lia.
Qed.

Lemma stem_no_sep p : SEP ∉ name p → SEP ∉ stem p.
Proof.
  unfold stem. destruct (suffix_index (name p)) as [i|]; [|done].
  intros H Hin. apply H. rewrite <- (take_drop i (name p)).
  apply elem_of_app. by left.
Qed.

(** Replacing the extension by ".json": the final component becomes the
    stem followed by ".json"; only a path without a final component is
    refused. *)
Lemma with_suffix_json p :
  with_suffix p (lit ".json") =
  if pystr_eqb (name p) [] then Raise ValueError
  else Ok (mkPath (root p) (removelast (names p) ++ [stem p ++ lit ".json"])).
Proof.
  unfold with_suffix.
  change (bool_decide (SEP ∈ lit ".json")) with false.
  change (negb (pystr_eqb (lit ".json") [])
          && negb (pystr_eqb (take 1 (lit ".json")) [DOT])
          || pystr_eqb (lit ".json") [DOT]) with false.
  simpl. destruct (pystr_eqb (name p) []); [done|].
  unfold suffix, stem. destruct (suffix_index (name p)) as [i|] eqn:E.
  - apply suffix_index_bounds in E.
    assert (pystr_eqb (drop i (name p)) [] = false) as ->.
    { apply bool_decide_eq_false_2. intros H%(f_equal length).
      rewrite length_drop in H. simpl in H. lia. }
    rewrite length_drop.
    by replace (length (name p) - (length (name p) - i))%nat with i by lia.
  - done.
Qed.

Lemma join_snoc init nm : join [SEP] (init ++ [nm]) = dir_prefix init ++ nm.
Proof.
  induction init as [|a r IH]; [done|].
  change (dir_prefix (a :: r)) with ((a ++ [SEP]) ++ dir_prefix r).
  rewrite <- !app_assoc, <- IH. simpl. by destruct r.
Qed.

Lemma Path_str_snoc rt init nm :
  Path_str (mkPath rt (init ++ [nm])) = (rt ++ dir_prefix init) ++ nm.
Proof.
  unfold Path_str. simpl. rewrite <- app_assoc, <- join_snoc.
  destruct rt; [|done]. destruct (init ++ [nm]) eqn:E; [|done].
  by destruct init.
Qed.

Lemma dir_prefix_shape rt init :
  rt = [] ∨ last rt = Some SEP →
  rt ++ dir_prefix init = [] ∨ last (rt ++ dir_prefix init) = Some SEP.
Proof.
  intros Hrt. destruct init as [|a r _] using rev_ind.
  - unfold dir_prefix. simpl. by rewrite app_nil_r.
  - right. unfold dir_prefix. rewrite map_app, concat_app. simpl.
    rewrite app_nil_r, !app_assoc. apply last_snoc.
Qed.

Lemma last_json l : last (l ++ lit ".json") = Some 110.
Proof.
  change (lit ".json") with ([46; 106; 115; 111] ++ [110]).
  rewrite app_assoc. apply last_snoc.
Qed.

Lemma output_dir_chain st :
  SEP ∉ st →
  dir_chain (joinpath REFERENCES st) =
  lit "tests" :: lit "tests/references"
  :: (if is_component st then [lit "tests/references/" ++ st] else []).
Proof.
  intros Hsep. unfold joinpath. rewrite (Path_of_str_simple st Hsep).
  by destruct (is_component st).
Qed.

(** The metadata file never coincides with the output directory or one
    of its ancestors. *)
Lemma metadata_path_not_in_chain arg :
  let p := Path_of_str arg in
  name p ≠ [] →
  Path_str (mkPath (root p) (removelast (names p) ++ [stem p ++ lit ".json"]))
  ∉ dir_chain (joinpath REFERENCES (stem p)).
Proof.
  intros p Hname. rewrite Path_str_snoc.
  assert (SEP ∉ stem p) as Hsep.
  { apply stem_no_sep. pose proof (Path_of_str_names arg) as H.
    eapply Forall_forall in H; [|by apply name_in_names]. tauto. }
  assert (root p = [] ∨ last (root p) = Some SEP) as Hroot.
  { destruct (Path_of_str_root arg) as [H|[H|H]]; fold p in H; rewrite H; auto. }
  pose proof (dir_prefix_shape _ (removelast (names p)) Hroot) as Hpre.
  set (pre := root p ++ dir_prefix (removelast (names p))) in *.
  set (st := stem p) in *.
  rewrite (output_dir_chain st Hsep).
  assert (pre ++ st ++ lit ".json" ≠ lit "tests") as H1.
  { intros H%(f_equal last). rewrite app_assoc, last_json in H. done. }
  assert (pre ++ st ++ lit ".json" ≠ lit "tests/references") as H2.
  { intros H%(f_equal last). rewrite app_assoc, last_json in H. done. }
  assert (pre ++ st ++ lit ".json" ≠ lit "tests/references/" ++ st) as H3.
  { intros H. pose proof (f_equal length H) as Hlen.
    rewrite !length_app in Hlen. simpl in Hlen.
    apply (f_equal (take 12)) in H.
    rewrite take_app_length' in H by lia.
    change (take 12 (lit "tests/references/" ++ st)) with (lit "tests/refere") in H.
    destruct Hpre as [Hpre|Hpre]; rewrite H in Hpre; done. }
  destruct (is_component st);
    repeat (intros [?|Hin]%elem_of_cons; [done|revert Hin]);
    apply not_elem_of_nil.
Qed.

(** ** Stem and suffix *)

Lemma rfind_None c s : rfind c s = None → c ∉ s.
Proof.
  induction s as [|x t IH]; simpl; [intros _; apply not_elem_of_nil|].
  destruct (rfind c t); [done|]. destruct (x =? c) eqn:E; [done|].
  intros _ [->|Hin]%elem_of_cons.
  - by rewrite N.eqb_refl in E.
  - by apply IH.
Qed.

Lemma rfind_app c a b : c ∉ b → rfind c (a ++ c :: b) = Some (length a).
Proof.
  intros Hb. induction a as [|x a IH]; simpl.
  - destruct (rfind c b) eqn:E.
    + destruct b as [|y b]; [done|]. exfalso.
      clear -E Hb. revert n E. induction (y :: b) as [|z l IH]; [done|].
      simpl. intros n. destruct (rfind c l) eqn:E'.
      * intros _. eapply IH; [|done]. intros ?. apply Hb, elem_of_cons. by right.
      * destruct (z =? c) eqn:Ez; [|done]. apply N.eqb_eq in Ez as ->.
        intros _. apply Hb, elem_of_cons. by left.
    + by rewrite N.eqb_refl.
  - by rewrite IH.
Qed.

Lemma rfind_Some c s i :
  rfind c s = Some i → ∃ a b, s = a ++ c :: b ∧ length a = i ∧ c ∉ b.
Proof.
  revert i. induction s as [|x t IH]; simpl; [done|]. intros i.
  destruct (rfind c t) as [j|] eqn:E.
  - intros [= <-]. destruct (IH j eq_refl) as (a & b & -> & <- & Hb).
    by exists (x :: a), b.
  - destruct (x =? c) eqn:Ex; [|done]. intros [= <-].
    apply N.eqb_eq in Ex as ->. exists [], t. split; [done|]. split; [done|].
    by apply rfind_None.
Qed.

(** The stem and suffix the code computes are the ones the documentation
    describes. *)
Lemma stem_suffix_of_sound p st sfx :
  stem_suffix_of (name p) st sfx → stem p = st ∧ suffix p = sfx.
Proof.
  unfold stem, suffix, suffix_index.
  inversion 1 as [base ext Hb He Hd Hn|nm Hno Hn]; subst.
  - rewrite rfind_app by done.
    assert ((0 <? length st)%nat
            && (length st + 1 <? length (st ++ DOT :: ext))%nat = true) as ->.
    { apply andb_true_iff. split; apply Nat.ltb_lt.
      - destruct st; [done|simpl; lia].
      - rewrite length_app. destruct ext; [done|simpl; lia]. }
    by rewrite take_app_length, drop_app_length.
  - destruct (rfind DOT (name p)) as [i|] eqn:E; [|done].
    destruct ((0 <? i)%nat && (i + 1 <? length (name p))%nat) eqn:Ei; [|done].
    exfalso. apply andb_true_iff in Ei as [H0%Nat.ltb_lt H1%Nat.ltb_lt].
    destruct (rfind_Some _ _ _ E) as (a & b & Hab & Hlen & Hd).
    rewrite Hab, length_app in H1. simpl in H1.
    destruct (Hno a b Hab Hd) as [->| ->]; simpl in *; lia.
Qed.

Lemma stem_suffix_of_complete p : stem_suffix_of (name p) (stem p) (suffix p).
Proof.
  unfold stem, suffix, suffix_index.
  destruct (rfind DOT (name p)) as [i|] eqn:E.
  - destruct (rfind_Some _ _ _ E) as (a & b & Hab & Hlen & Hd).
    destruct ((0 <? i)%nat && (i + 1 <? length (name p))%nat) eqn:Ei.
    + apply andb_true_iff in Ei as [H0%Nat.ltb_lt H1%Nat.ltb_lt].
      rewrite Hab, length_app in H1. simpl in H1.
      rewrite Hab, <- Hlen, take_app_length, drop_app_length.
      apply with_extension; [| |done].
      * intros ->. simpl in *. lia.
      * intros ->. simpl in *. lia.
    + apply without_extension. intros base ext Hn Hext.
      apply andb_false_iff in Ei.
      assert (length base = i) as Hi.
      { pose proof (rfind_app DOT base ext Hext) as Hr. rewrite <- Hn, E in Hr.
        by injection Hr. }
      rewrite Hn, length_app in Ei. simpl in Ei.
      destruct Ei as [H0%Nat.ltb_ge|H1%Nat.ltb_ge].
      * left. destruct base; [done|simpl in *; lia].
      * right. destruct ext; [done|simpl in *; lia].
  - apply without_extension. intros base ext Hn _. exfalso.
    apply (rfind_None _ _ E). rewrite Hn. apply elem_of_app. right.
    apply elem_of_cons. by left.
Qed.

(** ** The metadata writer *)

Lemma node_at_json_path s p : node_at s (json_path p) = fs s !! Path_str (json_path p).
Proof.
  unfold node_at, json_path. simpl.
  destruct (removelast (names p) ++ [stem p ++ lit ".json"]) eqn:E; [|done].
  by destruct (removelast (names p)).
Qed.

Lemma parent_json_path p : parent (json_path p) = parent p.
Proof. unfold parent, json_path. simpl. by rewrite removelast_last. Qed.

Lemma with_suffix_ok p : name p ≠ [] → with_suffix p (lit ".json") = Ok (json_path p).
Proof.
  intros H. rewrite with_suffix_json. unfold pystr_eqb.
  by rewrite bool_decide_eq_false_2.
Qed.

Lemma with_suffix_empty_name p : name p = [] → with_suffix p (lit ".json") = Raise ValueError.
Proof. intros H. rewrite with_suffix_json. by rewrite H. Qed.

(** The writer on a path with a final component, in every case. *)
Lemma generate_reference_data_unfold env x s :
  name (Path_of x) ≠ [] →
  generate_reference_data env x s =
  match node_at s (parent (Path_of x)) with
  | None => (Raise FileNotFoundError, s)
  | Some (File _) => (Raise NotADirectoryError, s)
  | Some Dir =>
      match fs s !! Path_str (json_path (Path_of x)) with
      | Some Dir => (Raise IsADirectoryError, s)
      | _ =>
          match os_error env (OsOpen (Path_str (json_path (Path_of x)))) with
          | Some f => (Raise (exn_of_fault f), s)
          | None =>
              (Ok tt,
               mkState (<[Path_str (json_path (Path_of x))
                          := File (metadata_text env x)]> (fs s))
                 (trace s ++ [EvWrite (Path_str (json_path (Path_of x)))
                                (metadata_text env x);
                              EvPrint (generated_line (json_path (Path_of x)))]))
          end
      end
  end.
Proof.
  intros Hname. unfold generate_reference_data.
  rewrite (with_suffix_ok _ Hname). run_step. unfold open_write.
  rewrite parent_json_path, node_at_json_path.
  destruct (node_at s (parent (Path_of x))) as [[c|]|]; [done| |done].
  destruct (fs s !! Path_str (json_path (Path_of x))) as [[c|]|] eqn:E;
    try done; destruct (os_error env _); try done; simpl; by rewrite <- app_assoc.
Qed.

Lemma generate_reference_data_ok env x s :
  name (Path_of x) ≠ [] →
  node_at s (parent (Path_of x)) = Some Dir →
  fs s !! Path_str (json_path (Path_of x)) ≠ Some Dir →
  os_error env (OsOpen (Path_str (json_path (Path_of x)))) = None →
  generate_reference_data env x s =
  (Ok tt,
   mkState (<[Path_str (json_path (Path_of x)) := File (metadata_text env x)]> (fs s))
     (trace s ++ [EvWrite (Path_str (json_path (Path_of x))) (metadata_text env x);
                  EvPrint (generated_line (json_path (Path_of x)))])).
Proof.
  intros Hname Hpar Hdir Hq. rewrite (generate_reference_data_unfold _ _ _ Hname).
  rewrite Hpar, Hq.
  by destruct (fs s !! Path_str (json_path (Path_of x))) as [[c|]|].
Qed.

Lemma generate_reference_data_empty_name env x s :
  name (Path_of x) = [] →
  generate_reference_data env x s = (Raise ValueError, s).
Proof.
  intros Hname. unfold generate_reference_data.
  by rewrite (with_suffix_empty_name _ Hname).
Qed.


(** ** The entry point *)

Lemma deps_lookup env :
  deps_of env !! lit "ImageMagick"
  = Some (outcome_available (run_process env convert_version)).
Proof.
  unfold deps_of. rewrite lookup_insert_ne by done. apply lookup_insert_eq.
Qed.

Lemma main_split env argv s :
  main env argv s =
  (check_dependencies env ≫= main_rest env argv) (mkState (fs s) (trace s ++ header)).
Proof.
  unfold main.
  rewrite (bind_ok _ _ s tt (emit (EvPrint (lit "PPTX Test Reference Generator")) s))
    by done.
  erewrite bind_ok by reflexivity.
  unfold header, emit. cbn [fs trace]. by rewrite <- !app_assoc.
Qed.

Lemma main_start env argv s :
  probe_benign env →
  main env argv s = main_rest env argv (deps_of env) (after_probe env s).
Proof.
  intros Hb. rewrite main_split.
  erewrite bind_ok by (by apply check_dependencies_spec).
  unfold after_probe. cbn [fs trace]. by rewrite <- !app_assoc.
Qed.

Lemma main_rest_usage env argv deps s :
  (length argv < 2)%nat →
  main_rest env argv deps s = (Ok tt, mkState (fs s) (trace s ++ usage_lines)).
Proof.
  intros Hlen. unfold main_rest.
  apply Nat.ltb_lt in Hlen. rewrite Hlen. run_step. by rewrite <- !app_assoc.
Qed.

Lemma main_rest_stat_fault env argv arg deps s f :
  argv !! 1%nat = Some arg →
  os_error env (OsStat (Path_str (Path_of_str arg))) = Some f →
  main_rest env argv deps s = (Raise (exn_of_fault f), s).
Proof.
  intros Harg Hf. unfold main_rest.
  assert ((length argv <? 2)%nat = false) as ->.
  { apply Nat.ltb_ge. apply lookup_lt_Some in Harg. lia. }
  unfold list_getitem. rewrite Harg. run_step. unfold Path_exists. by rewrite Hf.
Qed.

Lemma main_rest_not_found env argv arg deps s :
  argv !! 1%nat = Some arg →
  os_error env (OsStat (Path_str (Path_of_str arg))) = None →
  node_at s (Path_of_str arg) = None →
  main_rest env argv deps s
  = (Ok tt, mkState (fs s) (trace s ++ [not_found_line (Path_of_str arg)])).
Proof.
  intros Harg Hq Hnone. unfold main_rest.
  assert ((length argv <? 2)%nat = false) as ->.
  { apply Nat.ltb_ge. apply lookup_lt_Some in Harg. lia. }
  unfold list_getitem. rewrite Harg. run_step. unfold Path_exists.
  rewrite Hq, Hnone.
  rewrite bool_decide_eq_false_2 by (by intros [? ?]). done.
Qed.

Lemma main_rest_existing env argv arg s :
  argv !! 1%nat = Some arg →
  os_error env (OsStat (Path_str (Path_of_str arg))) = None →
  is_Some (node_at s (Path_of_str arg)) →
  main_rest env argv (deps_of env) s =
  match mkdir_parents_exist_ok env (output_dir_of (Path_of_str arg)) s with
  | (Raise e, s1) => (Raise e, s1)
  | (Ok _, s1) =>
      let s2 := mkState (fs s1) (trace s1 ++ processing_lines (Path_of_str arg)) in
      match generate_reference_data env (PPath (Path_of_str arg)) s2 with
      | (Raise e, s3) => (Raise e, s3)
      | (Ok _, s3) =>
          (Ok tt, mkState (fs s3) (trace s3 ++ closing_lines env (Path_of_str arg)))
      end
  end.
Proof.
  intros Harg Hq Hex. unfold main_rest.
  assert ((length argv <? 2)%nat = false) as ->.
  { apply Nat.ltb_ge. apply lookup_lt_Some in Harg. lia. }
  unfold list_getitem. rewrite Harg. run_step. unfold Path_exists.
  rewrite Hq.
  rewrite bool_decide_eq_true_2 by done. simpl.
  fold REFERENCES. fold (output_dir_of (Path_of_str arg)).
  destruct (mkdir_parents_exist_ok _ _ _) as [[[]|e] s1]; [|done].
  unfold processing_lines. simpl. rewrite <- app_assoc. simpl.
  destruct (generate_reference_data _ _ _) as [[[]|e] s3]; [|done].
  unfold dict_getitem. rewrite deps_lookup. run_step.
  unfold closing_lines.
  destruct (outcome_available _); simpl; by rewrite <- !app_assoc.
Qed.

Lemma main_usage env argv s :
  probe_benign env →
  (length argv < 2)%nat →
  main env argv s = (Ok tt, mkState (fs s) (trace (after_probe env s) ++ usage_lines)).
Proof. intros Hb Hlen. rewrite main_start by done. by rewrite main_rest_usage. Qed.

Lemma main_not_found env argv arg s :
  probe_benign env →
  os_error env (OsStat (Path_str (Path_of_str arg))) = None →
  argv !! 1%nat = Some arg →
  node_at s (Path_of_str arg) = None →
  main env argv s =
  (Ok tt, mkState (fs s) (trace (after_probe env s) ++ [not_found_line (Path_of_str arg)])).
Proof.
  intros Hb Hq Harg Hnone. rewrite main_start by done.
  by rewrite (main_rest_not_found env argv arg).
Qed.

Lemma main_existing env argv arg s :
  probe_benign env →
  os_error env (OsStat (Path_str (Path_of_str arg))) = None →
  argv !! 1%nat = Some arg →
  is_Some (node_at s (Path_of_str arg)) →
  main env argv s =
  match mkdir_parents_exist_ok env (output_dir_of (Path_of_str arg))
          (after_probe env s) with
  | (Raise e, s1) => (Raise e, s1)
  | (Ok _, s1) =>
      let s2 := mkState (fs s1) (trace s1 ++ processing_lines (Path_of_str arg)) in
      match generate_reference_data env (PPath (Path_of_str arg)) s2 with
      | (Raise e, s3) => (Raise e, s3)
      | (Ok _, s3) =>
          (Ok tt, mkState (fs s3) (trace s3 ++ closing_lines env (Path_of_str arg)))
      end
  end.
Proof.
  intros Hb Hq Harg Hex. rewrite main_start by done.
  by rewrite (main_rest_existing env argv arg).
Qed.

Lemma mkdir_after_probe env p s :
  os_quiet env →
  creatable s p = true →
  ∃ created,
    mkdir_parents_exist_ok env p (after_probe env s) =
      (Ok tt, mkState (add_dirs (dir_chain p) (fs s))
                      (trace (after_probe env s) ++ map EvMkdir created))
    ∧ Forall (λ q, q ∈ dir_chain p) created.
Proof. intros Hq H. by apply (mkdir_ok env p (after_probe env s)). Qed.

Lemma json_path_after_mkdir arg m :
  name (Path_of_str arg) ≠ [] →
  add_dirs (dir_chain (output_dir_of (Path_of_str arg))) m
    !! Path_str (json_path (Path_of_str arg))
  = m !! Path_str (json_path (Path_of_str arg)).
Proof.
  intros Hname. rewrite add_dirs_lookup, bool_decide_eq_false_2; [done|].
  by apply metadata_path_not_in_chain.
Qed.

(** Creating directories keeps directories. *)
Lemma node_at_add_dirs chain m t t' p :
  node_at (mkState m t) p = Some Dir →
  node_at (mkState (add_dirs chain m) t') p = Some Dir.
Proof.
  unfold node_at. destruct (names p); [done|]. cbn [fs].
  intros H. rewrite add_dirs_lookup. by destruct (bool_decide _).
Qed.

Lemma join_dir_prefix ns : ns ≠ [] → dir_prefix ns = join [SEP] ns ++ [SEP].
Proof.
  induction ns as [|x r IH]; [done|]. intros _.
  change (dir_prefix (x :: r)) with ((x ++ [SEP]) ++ dir_prefix r).
  destruct r as [|y r'].
  - unfold dir_prefix. simpl. by rewrite app_nil_r.
  - rewrite IH by done.
    change (join [SEP] (x :: y :: r')) with (x ++ [SEP] ++ join [SEP] (y :: r')).
    by rewrite <- !app_assoc.
Qed.

(** The derived path is not the directory that holds the input. *)
Lemma parent_ne_json_path p :
  names (parent p) ≠ [] → Path_str (parent p) ≠ Path_str (json_path p).
Proof.
  unfold parent, json_path. cbn [names root]. intros Hinit.
  rewrite Path_str_snoc, join_dir_prefix by done.
  unfold Path_str. cbn [names root].
  destruct (root p) as [|c rt], (removelast (names p)) as [|x init] eqn:E;
    try done; rewrite <- !app_assoc; intros H%(f_equal length);
    rewrite !length_app in H; simpl in H; lia.
Qed.

(** A walk that completes met no regular file and created what was
    missing. *)
Lemma mkdir_walk_inv env rt above todo s s1 :
  mkdir_walk env rt above todo s = (Ok tt, s1) →
  forallb (λ q, negb (is_file (fs s) q)) (chain_from rt above todo) = true
  ∧ ∃ created,
      s1 = mkState (add_dirs (chain_from rt above todo) (fs s))
                   (trace s ++ map EvMkdir created)
      ∧ Forall (λ q, q ∈ chain_from rt above todo) created.
Proof.
  intros Hrun. split.
  { destruct (forallb _ _) eqn:E; [done|].
    destruct (mkdir_walk_blocked env rt above todo s E) as (e & s' & Hfail).
    by rewrite Hfail in Hrun. }
  revert above s Hrun. induction todo as [|n rest IH]; intros above s; simpl.
  - intros [= <-]. exists []. destruct s. simpl. by rewrite app_nil_r.
  - destruct (fs s !! Path_str (mkPath rt (above ++ [n]))) as [[c|]|] eqn:E; [done| |].
    + intros Hrun. destruct (IH _ _ Hrun) as (created & -> & Hin).
      exists created. split.
      * by rewrite (insert_id _ _ _ E).
      * eapply Forall_impl; [exact Hin|]. intros q' ?. apply elem_of_cons. by right.
    + destruct (os_error env _); [done|]. intros Hrun.
      destruct (IH _ _ Hrun) as (created & -> & Hin).
      exists (Path_str (mkPath rt (above ++ [n])) :: created). split.
      * simpl. by rewrite <- app_assoc.
      * constructor; [apply elem_of_cons; by left|].
        eapply Forall_impl; [exact Hin|]. intros q' ?. apply elem_of_cons. by right.
Qed.

(** The writer either raises and leaves the state as it was, or writes
    the file and prints its line. *)
Lemma generate_reference_data_cases env x s :
  (∃ e, generate_reference_data env x s = (Raise e, s))
  ∨ (name (Path_of x) ≠ []
     ∧ node_at s (parent (Path_of x)) = Some Dir
     ∧ fs s !! Path_str (json_path (Path_of x)) ≠ Some Dir
     ∧ generate_reference_data env x s =
       (Ok tt,
        mkState (<[Path_str (json_path (Path_of x)) := File (metadata_text env x)]> (fs s))
          (trace s ++ [EvWrite (Path_str (json_path (Path_of x))) (metadata_text env x);
                       EvPrint (generated_line (json_path (Path_of x)))]))).
Proof.
  destruct (decide (name (Path_of x) = [])) as [Hname|Hname].
  { left. eexists. by apply generate_reference_data_empty_name. }
  pose proof (generate_reference_data_unfold env x s Hname) as Hu.
  destruct (node_at s (parent (Path_of x))) as [[c|]|] eqn:Hp; [by eauto| |by eauto].
  destruct (fs s !! Path_str (json_path (Path_of x))) as [[c|]|] eqn:E;
    [|by eauto|]; (destruct (os_error env _); [by eauto|]); right; done.
Qed.

(** The complete run on an existing input. *)
Lemma main_run env argv arg s :
  let p := Path_of_str arg in
  probe_benign env →
  os_quiet env →
  argv !! 1%nat = Some arg →
  is_Some (node_at s p) →
  node_at (mkState (add_dirs (dir_chain (output_dir_of p)) (fs s)) []) (parent p)
  = Some Dir →
  name p ≠ [] →
  creatable s (output_dir_of p) = true →
  fs s !! Path_str (json_path p) ≠ Some Dir →
  ∃ created,
    Forall (λ q, q ∈ dir_chain (output_dir_of p)) created
    ∧ main env argv s =
      (Ok tt,
       mkState
         (<[Path_str (json_path p) := File (metadata_text env (PPath p))]>
            (add_dirs (dir_chain (output_dir_of p)) (fs s)))
         (trace s ++ header ++ deps_trace env ++ map EvMkdir created
          ++ processing_lines p
          ++ [EvWrite (Path_str (json_path p)) (metadata_text env (PPath p));
              EvPrint (generated_line (json_path p))]
          ++ closing_lines env p)).
Proof.
  intros p Hb Hq Harg Hex Hpar Hname Hmk Hdir.
  destruct (mkdir_after_probe env _ _ Hq Hmk) as (created & Hrun & Hin).
  exists created. split; [done|].
  rewrite (main_existing _ _ _ _ Hb (Hq _) Harg Hex). fold p. rewrite Hrun. simpl.
  rewrite generate_reference_data_ok; simpl; [|done|exact Hpar| |done].
  - unfold after_probe. simpl. by rewrite <- !app_assoc.
  - unfold p. by rewrite json_path_after_mkdir.
Qed.

(** What a completed run on an existing input says about the state it
    started from and the state it ends in. *)
Lemma main_ok_benign env argv s s' :
  probe_read_only env → main env argv s = (Ok tt, s') → probe_benign env.
Proof.
  intros Hro Hrun. rewrite main_split in Hrun.
  destruct (check_dependencies_cases env (mkState (fs s) (trace s ++ header)))
    as [(s1 & _ & _ & _ & Hl1 & Hl2)|(f & s1 & t & Hfail & _)].
  - by split; [|split].
  - by rewrite (bind_raise _ _ _ _ _ Hfail) in Hrun.
Qed.

Lemma main_ok_inv env argv arg s s' :
  let p := Path_of_str arg in
  probe_read_only env →
  argv !! 1%nat = Some arg →
  is_Some (node_at s p) →
  main env argv s = (Ok tt, s') →
  name p ≠ []
  ∧ creatable s (output_dir_of p) = true
  ∧ fs s !! Path_str (json_path p) ≠ Some Dir
  ∧ node_at (mkState (add_dirs (dir_chain (output_dir_of p)) (fs s)) []) (parent p)
    = Some Dir
  ∧ ∃ created,
      Forall (λ q, q ∈ dir_chain (output_dir_of p)) created
      ∧ s' = mkState
               (<[Path_str (json_path p) := File (metadata_text env (PPath p))]>
                  (add_dirs (dir_chain (output_dir_of p)) (fs s)))
               (trace s ++ header ++ deps_trace env ++ map EvMkdir created
                ++ processing_lines p
                ++ [EvWrite (Path_str (json_path p)) (metadata_text env (PPath p));
                    EvPrint (generated_line (json_path p))]
                ++ closing_lines env p).
Proof.
  intros p Hro Harg Hex Hrun.
  pose proof (main_ok_benign _ _ _ _ Hro Hrun) as Hb.
  destruct (os_error env (OsStat (Path_str p))) as [f|] eqn:Hstat.
  { rewrite main_start, (main_rest_stat_fault _ _ _ _ _ _ Harg Hstat) in Hrun by done.
    done. }
  rewrite (main_existing _ _ _ _ Hb Hstat Harg Hex) in Hrun. fold p in Hrun.
  destruct (mkdir_parents_exist_ok env (output_dir_of p) (after_probe env s))
    as [[[]|e] s1] eqn:Hmk; [|done].
  apply mkdir_walk_inv in Hmk as (Hcr & created & -> & Hin).
  cbv zeta in Hrun. cbn [fs trace] in Hrun.
  match type of Hrun with
  | context [generate_reference_data env (PPath p) ?st] =>
      destruct (generate_reference_data_cases env (PPath p) st)
        as [(e & Hfail)|(Hname & Hpar & Hdir & Hok)]
  end.
  { by rewrite Hfail in Hrun. }
  rewrite Hok in Hrun. cbn [fs trace Path_of] in *.
  fold (dir_chain (output_dir_of p)) in *.
  split; [done|]. split; [done|].
  split. { unfold p in *. by rewrite json_path_after_mkdir in Hdir. }
  split; [done|].
  exists created. split; [done|]. injection Hrun as <-.
  unfold after_probe. cbn [trace]. by rewrite <- !app_assoc.
Qed.

Lemma example_env_benign : probe_benign example_env.
Proof.
  split; [|split; [|split]]; try (intros f; vm_compute; discriminate);
    intros m; reflexivity.
Qed.

Lemma example_env_quiet : os_quiet example_env.
Proof. intros c. reflexivity. Qed.

(** ** The prober and the argument check *)

(** C5, as stated, fails: when the ImageMagick binary is found but may
    not be executed, launching the version query fails with
    [PermissionError], which the handler does not name; the exception
    leaves the prober before any status is printed or returned. *)
Lemma check_dependencies_permission_denied :
  let env := with_processes example_env
               (λ cmd, if bool_decide (cmd = [lit "convert"; lit "--version"])
                       then LaunchFailed PermissionDenied else NotFound) in
  run_process env [lit "convert"; lit "--version"] = LaunchFailed PermissionDenied
  ∧ check_dependencies env example_state
    = (Raise PermissionError,
       mkState (fs example_state) [EvRun [lit "convert"; lit "--version"]]).
Proof. split; vm_compute; reflexivity. Qed.

(** C5, amended. When each of the two version queries either runs or
    fails because its binary is missing, the dependency prober returns
    normally: its result maps each of the two tools to a boolean, [true]
    exactly when the query ran and exited with 0, [false] when the binary
    is missing or the exit status is not 0; the prober itself touches no
    file, so the file system changes only by what the queried processes
    do. *)
Theorem check_dependencies_returns env s :
  launches env [lit "convert"; lit "--version"] →
  launches env [lit "gs"; lit "--version"] →
  ∃ available s',
    check_dependencies env s = (Ok available, s')
    ∧ available !! lit "ImageMagick"
      = Some (match run_process env [lit "convert"; lit "--version"] with
              | Exited rc => (rc =? 0)%Z
              | _ => false
              end)
    ∧ available !! lit "Ghostscript"
      = Some (match run_process env [lit "gs"; lit "--version"] with
              | Exited rc => (rc =? 0)%Z
              | _ => false
              end)
    ∧ dom available = {[lit "ImageMagick"; lit "Ghostscript"]}
    ∧ fs s' = effect_if_run env [lit "gs"; lit "--version"]
                (effect_if_run env [lit "convert"; lit "--version"] (fs s)).
Proof.
  intros Hl1 Hl2.
  destruct (check_dependencies_cases env s)
    as [(s' & Hrun & _ & Hfs & _)|(f & s' & t & _ & [Hf|Hf] & _)].
  - exists (deps_of env), s'. split; [done|].
    split; [apply deps_lookup|].
    split; [apply lookup_insert_eq|].
    split; [|done].
    unfold deps_of. rewrite !dom_insert_L, dom_empty_L. set_solver.
  - by destruct (Hl1 f).
  - by destruct (Hl2 f).
Qed.

Lemma check_dependencies_returns_witness :
  launches example_env [lit "convert"; lit "--version"]
  ∧ launches example_env [lit "gs"; lit "--version"]
  ∧ ∃ available s',
      check_dependencies example_env example_state = (Ok available, s')
      ∧ available !! lit "ImageMagick"
        = Some (match run_process example_env [lit "convert"; lit "--version"] with
                | Exited rc => (rc =? 0)%Z
                | _ => false
                end)
      ∧ available !! lit "Ghostscript"
        = Some (match run_process example_env [lit "gs"; lit "--version"] with
                | Exited rc => (rc =? 0)%Z
                | _ => false
                end)
      ∧ dom available = {[lit "ImageMagick"; lit "Ghostscript"]}
      ∧ fs s' = effect_if_run example_env [lit "gs"; lit "--version"]
                  (effect_if_run example_env [lit "convert"; lit "--version"]
                     (fs example_state)).
Proof.
  split; [intros f; vm_compute; discriminate|].
  split; [intros f; vm_compute; discriminate|].
  apply (check_dependencies_returns example_env example_state).
  - intros f. vm_compute. discriminate.
  - intros f. vm_compute. discriminate.
Defined.

(** C3, as stated, fails: [Path.exists] swallows only the errors that
    mean "no such file"; for a missing input whose name is longer than
    the file system allows, the status query fails with another
    [OSError], which leaves the entry point uncaught: no error line is
    printed and the exit status is 1. *)
Lemma missing_input_with_long_name :
  let arg := repeat 97 300 in
  let env := with_os_errors example_env
               (λ c, if bool_decide (c = OsStat arg) then Some NameTooLong else None) in
  node_at example_state (Path_of_str arg) = None
  ∧ main env [lit "generate_test_references.py"; arg] example_state
    = (Raise OSError, after_probe env example_state)
  ∧ exit_status (main env [lit "generate_test_references.py"; arg] example_state).1 = 1%Z.
Proof. split; [|split]; vm_compute; reflexivity. Qed.

(** C3, amended. On an input path that the existence test reports
    absent (the path is missing and the status query meets no other
    error), when both version queries can be launched and leave the file
    system alone, the entry point returns normally (exit status 0) after
    printing the error line; the file system is unchanged, and the trace
    gains only the banner, the two version queries with their status
    lines, and the error line: no directory is created and no file is
    written. *)
Theorem main_missing_input env argv arg s :
  probe_benign env →
  os_error env (OsStat (Path_str (Path_of_str arg))) = None →
  argv !! 1%nat = Some arg →
  node_at s (Path_of_str arg) = None →
  ∃ s',
    main env argv s = (Ok tt, s')
    ∧ exit_status (main env argv s).1 = 0%Z
    ∧ fs s' = fs s
    ∧ trace s' = trace s ++ header ++ deps_trace env
                 ++ [EvPrint (lit "Error: File not found: " ++ Path_str (Path_of_str arg))].
Proof.
  intros Hb Hq Harg Hnone. rewrite (main_not_found _ _ _ _ Hb Hq Harg Hnone).
  eexists. split; [done|]. split; [done|]. split; [done|].
  unfold after_probe, not_found_line. simpl. by rewrite <- !app_assoc.
Qed.

Lemma main_missing_input_witness :
  probe_benign example_env
  ∧ os_error example_env (OsStat (Path_str (Path_of_str (lit "missing.pptx")))) = None
  ∧ [lit "generate_test_references.py"; lit "missing.pptx"] !! 1%nat
    = Some (lit "missing.pptx")
  ∧ node_at example_state (Path_of_str (lit "missing.pptx")) = None
  ∧ ∃ s',
      main example_env [lit "generate_test_references.py"; lit "missing.pptx"] example_state
      = (Ok tt, s')
      ∧ exit_status
          (main example_env [lit "generate_test_references.py"; lit "missing.pptx"]
             example_state).1 = 0%Z
      ∧ fs s' = fs example_state
      ∧ trace s' = trace example_state ++ header ++ deps_trace example_env
                   ++ [EvPrint (lit "Error: File not found: "
                                ++ Path_str (Path_of_str (lit "missing.pptx")))].
Proof.
  split; [apply example_env_benign|]. split; [reflexivity|].
  split; [reflexivity|]. split; [vm_compute; reflexivity|].
  apply (main_missing_input example_env
           [lit "generate_test_references.py"; lit "missing.pptx"]
           (lit "missing.pptx") example_state).
  - apply example_env_benign.
  - reflexivity.
  - reflexivity.
  - vm_compute. reflexivity.
Defined.

(** C2, as stated, fails: with two arguments after the script name the
    entry point does not print the usage text; it runs on the first
    argument and writes its metadata file. *)
Lemma extra_argument_not_rejected :
  let argv := [lit "generate_test_references.py"; lit "decks/talk.pptx"; lit "--verbose"] in
  length argv = 3%nat
  ∧ main example_env argv example_state
    ≠ (Ok tt, mkState (fs example_state)
                (trace example_state ++ header ++ deps_trace example_env ++ usage_lines))
  ∧ fs (main example_env argv example_state).2 !! lit "decks/talk.json"
    = Some (File (metadata_text example_env (PPath (Path_of_str (lit "decks/talk.pptx"))))).
Proof.
  split; [reflexivity|]. split.
  - intros H.
    apply (f_equal (λ r : result unit * State, fs r.2 !! lit "decks/talk.json")) in H.
    vm_compute in H. discriminate H.
  - vm_compute. reflexivity.
Qed.

(** C2, amended. The entry point tests only [len(sys.argv) < 2]. Without
    an argument, once the prober has returned, it prints the usage text
    and returns with exit status 0, leaving the file system as it was.
    With one or more arguments the run is the run on the first argument
    alone: the argument is taken as a path whatever its text, and further
    arguments are ignored. *)
Theorem main_argument_check env argv s :
  ((length argv < 2)%nat →
     probe_benign env →
     main env argv s
     = (Ok tt, mkState (fs s) (trace s ++ header ++ deps_trace env ++ usage_lines))
     ∧ exit_status (main env argv s).1 = 0%Z)
  ∧ ((2 ≤ length argv)%nat → main env argv s = main env (take 2 argv) s).
Proof.
  split.
  - intros Hlen Hb. rewrite (main_usage _ _ _ Hb Hlen). split; [|done].
    unfold after_probe. simpl. by rewrite <- !app_assoc.
  - intros Hlen. rewrite !main_split. unfold mbind, M_bind.
    destruct (check_dependencies env _) as [[d|e] s1]; [|done].
    unfold main_rest.
    assert ((length argv <? 2)%nat = false) as -> by (apply Nat.ltb_ge; lia).
    assert ((length (take 2 argv) <? 2)%nat = false) as ->.
    { apply Nat.ltb_ge. rewrite length_take. lia. }
    unfold list_getitem. by rewrite lookup_take_lt by lia.
Qed.

Lemma main_argument_check_witness :
  (main example_env [lit "generate_test_references.py"] example_state
   = (Ok tt, mkState (fs example_state)
               (trace example_state ++ header ++ deps_trace example_env ++ usage_lines))
   ∧ exit_status (main example_env [lit "generate_test_references.py"] example_state).1 = 0%Z)
  ∧ main example_env
      [lit "generate_test_references.py"; lit "decks/talk.pptx"; lit "--verbose"]
      example_state
    = main example_env
        (take 2 [lit "generate_test_references.py"; lit "decks/talk.pptx"; lit "--verbose"])
        example_state.
Proof.
  split.
  - apply (proj1 (main_argument_check example_env
                    [lit "generate_test_references.py"] example_state)).
    + simpl. lia.
    + apply example_env_benign.
  - apply (proj2 (main_argument_check example_env
                    [lit "generate_test_references.py"; lit "decks/talk.pptx";
                     lit "--verbose"] example_state)).
    simpl. lia.
Defined.

(** C1, as stated, fails: "." exists, yet the run on it ends with an
    uncaught [ValueError] after the output directory has been created;
    no file is written. *)
Lemma current_directory_gets_no_metadata :
  let s := mkState ∅ [] in
  let p := Path_of_str (lit ".") in
  Path_exists example_env p s = (Ok true, s)
  ∧ main example_env [lit "generate_test_references.py"; lit "."] s
    = (Raise ValueError,
       mkState (<[lit "tests/references" := Dir]> (<[lit "tests" := Dir]> ∅))
         (header ++ deps_trace example_env
          ++ [EvMkdir (lit "tests"); EvMkdir (lit "tests/references")]
          ++ processing_lines p)).
Proof. split; vm_compute; reflexivity. Qed.

(** C1, amended. Take an existing input path whose final component is
    not empty and splits into the stem [st] and the suffix [sfx] (the
    suffix starts at the last dot, unless that dot is the first or the
    last character, in which case there is none). When the version
    queries can be launched and leave the file system alone, the
    operating system reports no error of its own, the directory holding
    the input is a directory, no regular file blocks the output directory
    tests/references/[st], and the path with the final component
    [st].json is not a directory, the run returns normally and the file
    at that path holds the serialized record with exactly the keys
    source, generated, method, dpi, slides, where method is "manual", dpi
    is 300 and slides is the empty list. *)
Theorem main_writes_metadata env argv arg s st sfx :
  let p := Path_of_str arg in
  let out := mkPath (root p) (removelast (names p) ++ [st ++ lit ".json"]) in
  probe_benign env →
  os_quiet env →
  argv !! 1%nat = Some arg →
  is_Some (node_at s p) →
  node_at s (parent p) = Some Dir →
  name p ≠ [] →
  stem_suffix_of (name p) st sfx →
  creatable s (joinpath (Path_of_str (lit "tests/references")) st) = true →
  fs s !! Path_str out ≠ Some Dir →
  ∃ s',
    with_suffix p (lit ".json") = Ok out
    ∧ main env argv s = (Ok tt, s')
    ∧ fs s' !! Path_str out = Some (File (json_dumps 2 (JDict (metadata env (PPath p)))))
    ∧ metadata env (PPath p)
      = [ (lit "source", JStr (Path_str p));
          (lit "generated", JStr (isoformat (now env)));
          (lit "method", JStr (lit "manual"));
          (lit "dpi", JInt 300);
          (lit "slides", JList []) ].
Proof.
  intros p out Hb Hq Harg Hex Hpar Hname Hsplit Hmk Hdir.
  destruct (stem_suffix_of_sound _ _ _ Hsplit) as [Hst _].
  assert (out = json_path p) as Hout by (unfold out, json_path; by rewrite Hst).
  rewrite Hout in *.
  assert (creatable s (output_dir_of p) = true) as Hmk'.
  { unfold output_dir_of, REFERENCES. by rewrite Hst. }
  assert (node_at (mkState (add_dirs (dir_chain (output_dir_of p)) (fs s)) [])
            (parent p) = Some Dir) as Hpar'.
  { apply node_at_add_dirs with (t := trace s). by destruct s. }
  destruct (main_run env argv arg s Hb Hq Harg Hex Hpar' Hname Hmk' Hdir)
    as (created & _ & Hrun).
  eexists.
  split; [by apply with_suffix_ok|].
  split; [exact Hrun|]. split; [|done].
  simpl. apply lookup_insert_eq.
Qed.

Lemma main_writes_metadata_witness :
  let argv := [lit "generate_test_references.py"; lit "decks/talk.v2.pptx"] in
  let s := mkState (<[lit "decks/talk.v2.pptx" := File (lit "PK")]>
                      (<[lit "decks" := Dir]> ∅)) [] in
  let p := Path_of_str (lit "decks/talk.v2.pptx") in
  let out := mkPath [] [lit "decks"; lit "talk.v2.json"] in
  probe_benign example_env
  ∧ os_quiet example_env
  ∧ argv !! 1%nat = Some (lit "decks/talk.v2.pptx")
  ∧ is_Some (node_at s p)
  ∧ node_at s (parent p) = Some Dir
  ∧ name p ≠ []
  ∧ stem_suffix_of (name p) (lit "talk.v2") (lit ".pptx")
  ∧ creatable s (joinpath (Path_of_str (lit "tests/references")) (lit "talk.v2")) = true
  ∧ fs s !! Path_str out ≠ Some Dir
  ∧ Path_str out = lit "decks/talk.v2.json"
  ∧ ∃ s',
      with_suffix p (lit ".json") = Ok out
      ∧ main example_env argv s = (Ok tt, s')
      ∧ fs s' !! Path_str out
        = Some (File (json_dumps 2 (JDict (metadata example_env (PPath p)))))
      ∧ metadata example_env (PPath p)
        = [ (lit "source", JStr (Path_str p));
            (lit "generated", JStr (isoformat (now example_env)));
            (lit "method", JStr (lit "manual"));
            (lit "dpi", JInt 300);
            (lit "slides", JList []) ].
Proof.
  assert (stem_suffix_of (name (Path_of_str (lit "decks/talk.v2.pptx")))
            (lit "talk.v2") (lit ".pptx")) as Hsplit.
  { apply (with_extension (lit "talk.v2") (lit "pptx")); [done|done|].
    apply (bool_decide_unpack _). vm_compute. exact I. }
  split; [apply example_env_benign|]. split; [apply example_env_quiet|].
  split; [reflexivity|]. split; [vm_compute; eexists; reflexivity|].
  split; [vm_compute; reflexivity|].
  split; [vm_compute; discriminate|]. split; [exact Hsplit|].
  split; [vm_compute; reflexivity|].
  split; [vm_compute; discriminate|]. split; [vm_compute; reflexivity|].
  apply (main_writes_metadata example_env
           [lit "generate_test_references.py"; lit "decks/talk.v2.pptx"]
           (lit "decks/talk.v2.pptx")
           (mkState (<[lit "decks/talk.v2.pptx" := File (lit "PK")]>
                       (<[lit "decks" := Dir]> ∅)) [])
           (lit "talk.v2") (lit ".pptx")).
  - apply example_env_benign.
  - apply example_env_quiet.
  - reflexivity.
  - vm_compute. eexists. reflexivity.
  - vm_compute. reflexivity.
  - vm_compute. discriminate.
  - exact Hsplit.
  - vm_compute. reflexivity.
  - vm_compute. discriminate.
Defined.

(** ** The serialized text *)

Lemma metadata_text_layout env x :
  metadata_text env x = metadata_layout (str_of x) (isoformat (now env)).
Proof.
  unfold metadata_text, metadata, json_dumps, metadata_layout, member_line.
  cbn [json_encode map fst snd join].
  generalize (encode_basestring_ascii (str_of x)) as e1.
  generalize (encode_basestring_ascii (isoformat (now env))) as e2.
  intros e2 e1. rewrite <- !app_assoc. reflexivity.
Qed.

Lemma is_ascii_app a b : is_ascii (a ++ b) = is_ascii a && is_ascii b.
Proof. apply forallb_app. Qed.

Lemma is_ascii_repeat c n : c < 128 → is_ascii (repeat c n) = true.
Proof.
  intros Hc. induction n as [|n IH]; simpl; [done|].
  rewrite IH, andb_true_r. by apply N.ltb_lt.
Qed.

Lemma hex_digit_ascii n : is_ascii [hex_digit (N.land n 15)] = true.
Proof.
  assert (N.land n 15 < 16) as H.
  { change 15 with (N.ones 4). rewrite N.land_ones. by apply N.mod_lt. }
  unfold hex_digit, is_ascii. simpl. rewrite andb_true_r.
  destruct (N.land n 15 <? 10); apply N.ltb_lt; lia.
Qed.

Lemma hex4_ascii n : is_ascii (hex4 n) = true.
Proof.
  unfold hex4.
  change (is_ascii ([hex_digit (N.land (N.shiftr n 12) 15)]
                    ++ [hex_digit (N.land (N.shiftr n 8) 15)]
                    ++ [hex_digit (N.land (N.shiftr n 4) 15)]
                    ++ [hex_digit (N.land n 15)]) = true).
  by rewrite !is_ascii_app, !hex_digit_ascii.
Qed.

Lemma escape_char_ascii c : is_ascii (escape_char c) = true.
Proof.
  unfold escape_char.
  repeat (match goal with |- is_ascii (if ?b then _ else _) = true =>
            destruct b eqn:? end; try reflexivity).
  - unfold is_ascii. simpl. rewrite andb_true_r.
    match goal with H : _ && _ = true |- _ =>
      apply andb_true_iff in H as [_ H]; apply N.leb_le in H end.
    apply N.ltb_lt. lia.
  - change (is_ascii ([BACKSLASH; 117] ++ hex4 c) = true).
    by rewrite is_ascii_app, hex4_ascii.
  - set (s1 := N.lor _ _). set (s2 := N.lor _ _).
    change (is_ascii ([BACKSLASH; 117] ++ hex4 s1 ++ [BACKSLASH; 117] ++ hex4 s2) = true).
    by rewrite !is_ascii_app, !hex4_ascii.
Qed.

Lemma encode_basestring_ascii_is_ascii t : is_ascii (encode_basestring_ascii t) = true.
Proof.
  unfold encode_basestring_ascii. rewrite !is_ascii_app.
  assert (is_ascii (concat (map escape_char t)) = true) as ->; [|done].
  induction t as [|c t IH]; simpl; [done|].
  by rewrite is_ascii_app, escape_char_ascii, IH.
Qed.

Lemma digits_of_uint_ascii u : is_ascii (digits_of_uint u) = true.
Proof. induction u; simpl; done. Qed.

Lemma zero_pad_ascii w n : is_ascii (zero_pad w n) = true.
Proof.
  unfold zero_pad, str_of_N.
  by rewrite is_ascii_app, is_ascii_repeat, digits_of_uint_ascii.
Qed.

Lemma isoformat_ascii d : is_ascii (isoformat d) = true.
Proof.
  unfold isoformat. rewrite !is_ascii_app, !zero_pad_ascii.
  destruct (microsecond d =? 0); [done|].
  by rewrite is_ascii_app, zero_pad_ascii.
Qed.

Lemma metadata_layout_ascii source generated :
  is_ascii (metadata_layout source generated) = true.
Proof.
  unfold metadata_layout, member_line.
  by rewrite !is_ascii_app, !encode_basestring_ascii_is_ascii.
Qed.

(** ASCII text is its own UTF-8 encoding. *)
Lemma utf8_encode_ascii t : is_ascii t = true → utf8_encode t = Some t.
Proof.
  induction t as [|c t IH]; simpl; [done|].
  intros [Hc Ht]%andb_true_iff. unfold utf8_encode_char.
  by rewrite Hc, (IH Ht).
Qed.

(** C4. Given a path with a final component, the metadata writer derives
    its output path by replacing that component's extension by ".json":
    with the component split into the stem [st] and the suffix (which
    starts at the last dot, unless that dot is the first or the last
    character, in which case there is none), the new component is
    [st].json. When the directory holding the path is a directory, the
    output path is not one, and opening it meets no operating-system
    error, the writer stores there the record laid out one member per
    line with two spaces of indentation, in the order source, generated,
    method, dpi, slides. The text is ASCII, so its UTF-8 encoding is the
    text itself. *)
Theorem generate_reference_data_writes env x s st sfx :
  let p := Path_of x in
  let out := mkPath (root p) (removelast (names p) ++ [st ++ lit ".json"]) in
  name p ≠ [] →
  stem_suffix_of (name p) st sfx →
  node_at s (parent p) = Some Dir →
  fs s !! Path_str out ≠ Some Dir →
  os_error env (OsOpen (Path_str out)) = None →
  ∃ text,
    with_suffix p (lit ".json") = Ok out
    ∧ generate_reference_data env x s =
      (Ok tt, mkState (<[Path_str out := File text]> (fs s))
                (trace s ++ [EvWrite (Path_str out) text;
                             EvPrint ([CHECK_MARK] ++ lit " Generated metadata: "
                                      ++ Path_str out)]))
    ∧ text = metadata_layout (str_of x) (isoformat (now env))
    ∧ is_ascii text = true
    ∧ utf8_encode text = Some text.
Proof.
  intros p out Hname Hsplit Hpar Hdir Hq.
  destruct (stem_suffix_of_sound _ _ _ Hsplit) as [Hst _].
  assert (out = json_path p) as Hout by (unfold out, json_path; by rewrite Hst).
  rewrite Hout in *.
  exists (metadata_text env x).
  split; [by apply with_suffix_ok|].
  split; [by apply generate_reference_data_ok|].
  split; [apply metadata_text_layout|].
  assert (is_ascii (metadata_text env x) = true) as Hascii.
  { rewrite metadata_text_layout. apply metadata_layout_ascii. }
  split; [done|]. by apply utf8_encode_ascii.
Qed.

Lemma generate_reference_data_writes_witness :
  let x := PStr (lit "decks//talk.tar.gz") in
  let s := mkState (<[lit "decks" := Dir]> ∅) [] in
  let p := Path_of x in
  let out := mkPath [] [lit "decks"; lit "talk.tar.json"] in
  name p ≠ []
  ∧ stem_suffix_of (name p) (lit "talk.tar") (lit ".gz")
  ∧ node_at s (parent p) = Some Dir
  ∧ fs s !! Path_str out ≠ Some Dir
  ∧ os_error example_env (OsOpen (Path_str out)) = None
  ∧ Path_str out = lit "decks/talk.tar.json"
  ∧ ∃ text,
      with_suffix p (lit ".json") = Ok out
      ∧ generate_reference_data example_env x s =
        (Ok tt, mkState (<[Path_str out := File text]> (fs s))
                  (trace s
                   ++ [EvWrite (Path_str out) text;
                       EvPrint ([CHECK_MARK] ++ lit " Generated metadata: "
                                ++ Path_str out)]))
      ∧ text = metadata_layout (str_of x) (isoformat (now example_env))
      ∧ is_ascii text = true
      ∧ utf8_encode text = Some text.
Proof.
  assert (stem_suffix_of (name (Path_of (PStr (lit "decks//talk.tar.gz"))))
            (lit "talk.tar") (lit ".gz")) as Hsplit.
  { apply (with_extension (lit "talk.tar") (lit "gz")); [done|done|].
    apply (bool_decide_unpack _). vm_compute. exact I. }
  split; [vm_compute; discriminate|]. split; [exact Hsplit|].
  split; [vm_compute; reflexivity|]. split; [vm_compute; discriminate|].
  split; [reflexivity|]. split; [vm_compute; reflexivity|].
  apply (generate_reference_data_writes example_env (PStr (lit "decks//talk.tar.gz"))
           (mkState (<[lit "decks" := Dir]> ∅) []) (lit "talk.tar") (lit ".gz")).
  - vm_compute. discriminate.
  - exact Hsplit.
  - vm_compute. reflexivity.
  - vm_compute. discriminate.
  - reflexivity.
Defined.

(** ** The default flow *)

Lemma runs_app t1 t2 : runs (t1 ++ t2) = runs t1 ++ runs t2.
Proof. apply omap_app. Qed.

Lemma runs_mkdir created : runs (map EvMkdir created) = [].
Proof. induction created as [|q l IH]; [done|]. exact IH. Qed.

Lemma runs_closing_lines env p : runs (closing_lines env p) = [].
Proof. unfold closing_lines. by destruct (outcome_available _). Qed.

Lemma default_flow_probe env p :
  Forall (default_flow_event env p) (header ++ deps_trace env).
Proof.
  unfold header, deps_trace.
  repeat (apply Forall_cons; split; [simpl; auto|]). apply Forall_nil_2.
Qed.

Lemma default_flow_mkdir env p created :
  Forall (λ q, q ∈ dir_chain (output_dir_of p)) created →
  Forall (default_flow_event env p) (map EvMkdir created).
Proof. intros H. apply Forall_map. exact H. Qed.

Lemma default_flow_closing env p : Forall (default_flow_event env p) (closing_lines env p).
Proof.
  unfold closing_lines. destruct (outcome_available _); repeat constructor.
Qed.

(** The shape of the trace of a run on an existing input, whatever its
    outcome. *)
Lemma main_trace_shape env argv arg s :
  let p := Path_of_str arg in
  probe_benign env →
  argv !! 1%nat = Some arg →
  is_Some (node_at s p) →
  ∃ t,
    trace (main env argv s).2 = trace s ++ t
    ∧ runs t = [[lit "convert"; lit "--version"]; [lit "gs"; lit "--version"]]
    ∧ Forall (default_flow_event env p) t.
Proof.
  intros p Hb Harg Hex.
  pose proof (default_flow_probe env p) as Hprobe.
  assert (runs (header ++ deps_trace env)
          = [[lit "convert"; lit "--version"]; [lit "gs"; lit "--version"]]) as Hruns
    by reflexivity.
  destruct (os_error env (OsStat (Path_str p))) as [f|] eqn:Hstat.
  { rewrite main_start, (main_rest_stat_fault _ _ _ _ _ _ Harg Hstat) by done.
    exists (header ++ deps_trace env). by split. }
  rewrite (main_existing _ _ _ _ Hb Hstat Harg Hex). fold p.
  destruct (mkdir_walk_trace env (root (output_dir_of p)) [] (names (output_dir_of p))
              (after_probe env s)) as (created & Htr & Hin).
  fold (dir_chain (output_dir_of p)) in Hin.
  fold (mkdir_parents_exist_ok env (output_dir_of p) (after_probe env s)) in Htr.
  pose proof (default_flow_mkdir env p created Hin) as Hmk.
  destruct (mkdir_parents_exist_ok _ _ _) as [[[]|e] s1]; cbn [snd] in Htr.
  2:{ exists ((header ++ deps_trace env) ++ map EvMkdir created). cbn [snd].
      rewrite Htr. unfold after_probe. cbn [trace].
      split; [by rewrite <- !app_assoc|].
      split; [by rewrite runs_app, runs_mkdir, app_nil_r|].
      by apply Forall_app_2. }
  cbv zeta. set (s2 := mkState (fs s1) (trace s1 ++ processing_lines p)).
  assert (trace s2 = trace s ++ ((header ++ deps_trace env) ++ map EvMkdir created)
                              ++ processing_lines p) as Hs2.
  { subst s2. cbn [trace]. rewrite Htr. unfold after_probe. cbn [trace].
    by rewrite <- !app_assoc. }
  assert (Forall (default_flow_event env p) (processing_lines p)) as Hproc
    by (repeat constructor).
  destruct (generate_reference_data_cases env (PPath p) s2)
    as [(e & ->)|(_ & _ & _ & ->)].
  { exists (((header ++ deps_trace env) ++ map EvMkdir created) ++ processing_lines p).
    cbn [snd]. split; [by rewrite Hs2, <- !app_assoc|].
    split; [by rewrite !runs_app, runs_mkdir|].
    apply Forall_app_2; [by apply Forall_app_2|done]. }
  cbn [snd trace fs Path_of].
  exists ((((header ++ deps_trace env) ++ map EvMkdir created) ++ processing_lines p)
          ++ [EvWrite (Path_str (json_path p)) (metadata_text env (PPath p));
              EvPrint (generated_line (json_path p))]
          ++ closing_lines env p).
  split.
  { rewrite Hs2. by rewrite <- !app_assoc. }
  split.
  { rewrite !runs_app, runs_mkdir, runs_closing_lines. reflexivity. }
  apply Forall_app_2; [apply Forall_app_2; [by apply Forall_app_2|done]|].
  apply Forall_app_2; [|apply default_flow_closing].
  apply Forall_cons; split; [done|]. by apply Forall_singleton.
Qed.

(** C6. On an existing input, once both version queries of the
    dependency probe have been launched (each runs or its binary is
    missing) and have left the file system alone, whatever happens later
    in the run, the commands launched are exactly those two queries, in
    that order; every other event of the run is a printed line, the
    creation of the output directory or of one of its ancestors, or the
    write of the metadata file. No conversion command ([soffice],
    [convert -density], [osascript]) is launched; in a run that
    completes, the [soffice] command line is among the printed lines, and
    the [convert -density] line too when ImageMagick is available. *)
Theorem main_launches_no_conversion env argv arg s :
  let p := Path_of_str arg in
  probe_benign env →
  argv !! 1%nat = Some arg →
  is_Some (node_at s p) →
  ∃ t,
    trace (main env argv s).2 = trace s ++ t
    ∧ runs t = [[lit "convert"; lit "--version"]; [lit "gs"; lit "--version"]]
    ∧ Forall (default_flow_event env p) t
    ∧ ∀ s', main env argv s = (Ok tt, s') →
        ∃ created,
          t = header ++ deps_trace env ++ map EvMkdir created
              ++ processing_lines p
              ++ [EvWrite (Path_str (json_path p)) (metadata_text env (PPath p));
                  EvPrint (generated_line (json_path p))]
              ++ closing_lines env p.
Proof.
  intros p Hb Harg Hex.
  destruct (main_trace_shape env argv arg s Hb Harg Hex) as (t & Htr & Hruns & Hall).
  exists t. split; [done|]. split; [done|]. split; [done|].
  intros s' Hrun.
  destruct (main_ok_inv _ _ _ _ _ (proj2 (proj2 Hb)) Harg Hex Hrun)
    as (_ & _ & _ & _ & created & _ & ->).
  exists created. rewrite Hrun in Htr. cbn [snd trace] in Htr.
  by apply app_inv_head in Htr.
Qed.

Lemma main_launches_no_conversion_witness :
  let argv := [lit "generate_test_references.py"; lit "decks/talk.pptx"] in
  let p := Path_of_str (lit "decks/talk.pptx") in
  probe_benign example_env
  ∧ argv !! 1%nat = Some (lit "decks/talk.pptx")
  ∧ is_Some (node_at example_state p)
  ∧ ∃ t,
      trace (main example_env argv example_state).2 = trace example_state ++ t
      ∧ runs t = [[lit "convert"; lit "--version"]; [lit "gs"; lit "--version"]]
      ∧ Forall (default_flow_event example_env p) t
      ∧ ∀ s', main example_env argv example_state = (Ok tt, s') →
          ∃ created,
            t = header ++ deps_trace example_env ++ map EvMkdir created
                ++ processing_lines p
                ++ [EvWrite (Path_str (json_path p))
                      (metadata_text example_env (PPath p));
                    EvPrint (generated_line (json_path p))]
                ++ closing_lines example_env p.
Proof.
  split; [apply example_env_benign|].
  split; [reflexivity|]. split; [vm_compute; eexists; reflexivity|].
  apply (main_launches_no_conversion example_env
           [lit "generate_test_references.py"; lit "decks/talk.pptx"]
           (lit "decks/talk.pptx") example_state).
  - apply example_env_benign.
  - reflexivity.
  - vm_compute. eexists. reflexivity.
Defined.

(** ** Running twice *)

Lemma node_at_fs s s' p : fs s = fs s' → node_at s p = node_at s' p.
Proof. unfold node_at. by intros ->. Qed.

(** C7. When a run on an existing input has completed, its version
    queries having left the file system alone, a second run on the same
    input, whatever the clock and the tools then answer (as long as its
    own version queries can be launched and leave the file system alone,
    and the operating system reports no error of its own), also
    completes, and leaves the file system exactly as that second run
    alone would have left it: the metadata file holds the second run's
    record and nothing of the first. *)
Theorem main_rerun_overwrites env1 env2 argv arg s0 s1 :
  let p := Path_of_str arg in
  probe_read_only env1 →
  probe_benign env2 →
  os_quiet env2 →
  argv !! 1%nat = Some arg →
  is_Some (node_at s0 p) →
  main env1 argv s0 = (Ok tt, s1) →
  ∃ s2 s2',
    main env2 argv s1 = (Ok tt, s2)
    ∧ main env2 argv s0 = (Ok tt, s2')
    ∧ fs s2 = fs s2'
    ∧ fs s2 !! Path_str (json_path p)
      = Some (File (json_dumps 2 (JDict (metadata env2 (PPath p))))).
Proof.
  intros p Hb1 Hb2 Hq2 Harg Hex Hrun1.
  destruct (main_ok_inv _ _ _ _ _ Hb1 Harg Hex Hrun1)
    as (Hname & Hmk & Hdir & Hpar & c1 & _ & Hs1).
  fold p in Hname, Hmk, Hdir, Hpar, Hs1.
  pose proof (metadata_path_not_in_chain arg Hname) as Hout. fold p in Hout.
  fold (json_path p) in Hout. fold (output_dir_of p) in Hout.
  set (chain := dir_chain (output_dir_of p)) in *.
  set (out := Path_str (json_path p)) in *.
  assert (fs s1 = <[out := File (metadata_text env1 (PPath p))]> (add_dirs chain (fs s0)))
    as Hfs1 by (by rewrite Hs1).
  assert (is_Some (node_at s1 p)) as Hex1.
  { unfold node_at in *. destruct (names p); [done|]. rewrite Hfs1.
    destruct (decide (out = Path_str p)) as [<-|Hne].
    - rewrite lookup_insert_eq. by eexists.
    - rewrite lookup_insert_ne by done. rewrite add_dirs_lookup.
      case_bool_decide; [by eexists|done]. }
  assert (creatable s1 (output_dir_of p) = true) as Hmk1.
  { unfold creatable. apply forallb_forall. intros q Hq%list_elem_of_In.
    fold chain in Hq. unfold is_file. rewrite Hfs1.
    rewrite lookup_insert_ne by (intros ->; done).
    by rewrite add_dirs_lookup, bool_decide_eq_true_2. }
  assert (fs s1 !! out ≠ Some Dir) as Hdir1.
  { by rewrite Hfs1, lookup_insert_eq. }
  assert (node_at (mkState (add_dirs chain (fs s1)) []) (parent p) = Some Dir) as Hpar1.
  { unfold node_at in *. destruct (names (parent p)) eqn:En; [done|].
    cbn [fs] in *. rewrite add_dirs_lookup. case_bool_decide; [done|].
    rewrite Hfs1, lookup_insert_ne; [done|].
    intros Heq. apply (parent_ne_json_path p); [by rewrite En|done]. }
  destruct (main_run env2 argv arg s1 Hb2 Hq2 Harg Hex1 Hpar1 Hname Hmk1 Hdir1)
    as (c2 & _ & Hrun2).
  destruct (main_run env2 argv arg s0 Hb2 Hq2 Harg Hex Hpar Hname Hmk Hdir)
    as (c3 & _ & Hrun3).
  fold p chain out in Hrun2, Hrun3.
  eexists _, _. split; [exact Hrun2|]. split; [exact Hrun3|]. cbn [fs]. split.
  - rewrite Hfs1. apply map_eq. intros k.
    destruct (decide (k = out)) as [->|Hne].
    + by rewrite !lookup_insert_eq.
    + rewrite !lookup_insert_ne by done. rewrite !add_dirs_lookup.
      case_bool_decide; [done|]. by rewrite lookup_insert_ne, add_dirs_lookup,
        bool_decide_eq_false_2 by done.
  - apply lookup_insert_eq.
Qed.

Lemma main_rerun_overwrites_witness :
  let argv := [lit "generate_test_references.py"; lit "decks/talk.pptx"] in
  let p := Path_of_str (lit "decks/talk.pptx") in
  let later := mkEnv (λ _, NotFound) (λ _ m, m) (λ _, None)
                     (mkDatetime 2025 1 2 3 4 5 678)
                     (str_CalledProcessError example_env) in
  let s1 := (main example_env argv example_state).2 in
  probe_read_only example_env
  ∧ probe_benign later
  ∧ os_quiet later
  ∧ argv !! 1%nat = Some (lit "decks/talk.pptx")
  ∧ is_Some (node_at example_state p)
  ∧ main example_env argv example_state = (Ok tt, s1)
  ∧ ∃ s2 s2',
      main later argv s1 = (Ok tt, s2)
      ∧ main later argv example_state = (Ok tt, s2')
      ∧ fs s2 = fs s2'
      ∧ fs s2 !! Path_str (json_path p)
        = Some (File (json_dumps 2 (JDict (metadata later (PPath p))))).
Proof.
  assert (probe_benign (mkEnv (λ _, NotFound) (λ _ m, m) (λ _, None)
                          (mkDatetime 2025 1 2 3 4 5 678)
                          (str_CalledProcessError example_env))) as Hb.
  { split; [|split; [|split]]; try (intros f; vm_compute; discriminate);
      intros m; reflexivity. }
  split; [apply example_env_benign|]. split; [exact Hb|].
  split; [intros c; reflexivity|].
  split; [reflexivity|]. split; [vm_compute; eexists; reflexivity|].
  split; [vm_compute; reflexivity|].
  apply (main_rerun_overwrites example_env
           (mkEnv (λ _, NotFound) (λ _ m, m) (λ _, None)
                  (mkDatetime 2025 1 2 3 4 5 678)
                  (str_CalledProcessError example_env))
           [lit "generate_test_references.py"; lit "decks/talk.pptx"]
           (lit "decks/talk.pptx") example_state).
  - apply example_env_benign.
  - exact Hb.
  - intros c. reflexivity.
  - reflexivity.
  - vm_compute. eexists. reflexivity.
  - vm_compute. reflexivity.
Defined.

(** ** The rasterizer invoker *)

(** The invoker once the output directory is in place. *)
Lemma pdf_to_images_run env pdf_path output_dir dpi s :
  let d := Path_of output_dir in
  let cmd := convert_cmd pdf_path d dpi in
  os_quiet env →
  creatable s d = true →
  ∃ created,
    Forall (λ q, q ∈ dir_chain d) created
    ∧ mkdir_parents_exist_ok env d s
      = (Ok tt, mkState (add_dirs (dir_chain d) (fs s)) (trace s ++ map EvMkdir created))
    ∧ pdf_to_images env pdf_path output_dir dpi s =
      match run_process env cmd with
      | NotFound =>
          (Raise FileNotFoundError,
           mkState (add_dirs (dir_chain d) (fs s))
             (trace s ++ map EvMkdir created ++ [EvRun cmd]))
      | LaunchFailed f =>
          (Raise (exn_of_fault f),
           mkState (add_dirs (dir_chain d) (fs s))
             (trace s ++ map EvMkdir created ++ [EvRun cmd]))
      | Exited rc =>
          (Ok tt,
           mkState (process_effect env cmd (add_dirs (dir_chain d) (fs s)))
             (trace s ++ map EvMkdir created
              ++ [EvRun cmd;
                  EvPrint (if (rc =? 0)%Z then converted_line d
                           else failed_line env cmd rc)]))
      end.
Proof.
  intros d cmd Hq Hmk. destruct (mkdir_ok env d s Hq Hmk) as (created & Hok & Hin).
  exists created. split; [done|]. split; [done|].
  unfold pdf_to_images. fold d. rewrite (bind_ok _ _ _ _ _ Hok). fold cmd.
  unfold try_except, subprocess_run. run_step.
  destruct (run_process env cmd) as [|f|rc]; simpl.
  - by rewrite <- !app_assoc.
  - destruct f; simpl; by rewrite <- !app_assoc.
  - destruct (rc =? 0)%Z; simpl; by rewrite <- !app_assoc.
Qed.

Lemma pdf_to_images_blocked env pdf_path output_dir dpi s :
  creatable s (Path_of output_dir) = false →
  ∃ e s',
    mkdir_parents_exist_ok env (Path_of output_dir) s = (Raise e, s')
    ∧ pdf_to_images env pdf_path output_dir dpi s = (Raise e, s').
Proof.
  intros Hmk. destruct (mkdir_blocked env _ s Hmk) as (e & s' & Hfail).
  exists e, s'. split; [done|]. unfold pdf_to_images.
  by rewrite (bind_raise _ _ _ _ _ Hfail).
Qed.

Lemma add_dirs_chain_dirs chain m : Forall (λ q, add_dirs chain m !! q = Some Dir) chain.
Proof.
  apply Forall_forall. intros q Hq.
  by rewrite add_dirs_lookup, bool_decide_eq_true_2.
Qed.

Lemma chain_from_last rt above todo :
  todo ≠ [] → Path_str (mkPath rt (above ++ todo)) ∈ chain_from rt above todo.
Proof.
  revert above. induction todo as [|n rest IH]; intros above Hne; [done|].
  simpl. destruct rest as [|n' rest'].
  - apply elem_of_cons. by left.
  - apply elem_of_cons. right.
    replace (above ++ n :: n' :: rest') with ((above ++ [n]) ++ n' :: rest')
      by (by rewrite <- app_assoc).
    by apply IH.
Qed.

Lemma node_at_after_mkdir p m t : node_at (mkState (add_dirs (dir_chain p) m) t) p = Some Dir.
Proof.
  unfold node_at. destruct (names p) as [|n rest] eqn:E; [done|]. cbn [fs].
  rewrite add_dirs_lookup, bool_decide_eq_true_2; [done|].
  unfold dir_chain. destruct p as [rt ns]. simpl in *. subst ns.
  by apply (chain_from_last rt []).
Qed.

(** C8. When no regular file blocks the output directory and the
    operating system reports no error of its own, the invoker first makes
    it a directory together with every ancestor, and only in the
    resulting state launches the conversion command; the invoker itself
    changes no file afterwards, so the file system ends as the launched
    process leaves it; when that command exits with a non-zero status the
    invoker prints the failure line and returns normally. When a regular
    file does block the directory, the exception of [mkdir] propagates
    and nothing is launched. *)
Theorem pdf_to_images_makes_directory_first env pdf_path output_dir dpi s :
  let d := Path_of output_dir in
  let cmd := convert_cmd pdf_path d dpi in
  (creatable s d = true →
   os_quiet env →
   ∃ created s1,
     mkdir_parents_exist_ok env d s = (Ok tt, s1)
     ∧ trace s1 = trace s ++ map EvMkdir created
     ∧ node_at s1 d = Some Dir
     ∧ Forall (λ q, fs s1 !! q = Some Dir) (dir_chain d)
     ∧ (∃ rest, trace (pdf_to_images env pdf_path output_dir dpi s).2
                = trace s1 ++ EvRun cmd :: rest)
     ∧ fs (pdf_to_images env pdf_path output_dir dpi s).2
       = match run_process env cmd with
         | Exited _ => process_effect env cmd (fs s1)
         | _ => fs s1
         end
     ∧ ∀ rc, run_process env cmd = Exited rc → rc ≠ 0%Z →
         pdf_to_images env pdf_path output_dir dpi s
         = (Ok tt,
            mkState (process_effect env cmd (fs s1))
              (trace s1 ++ [EvRun cmd;
                            EvPrint ([BALLOT_X] ++ lit " Failed to convert PDF: "
                                     ++ str_CalledProcessError env cmd rc)])))
  ∧ (creatable s d = false →
     ∃ e s' created,
       pdf_to_images env pdf_path output_dir dpi s = (Raise e, s')
       ∧ trace s' = trace s ++ map EvMkdir created).
Proof.
  intros d cmd. split.
  - intros Hmk Hq.
    destruct (pdf_to_images_run env pdf_path output_dir dpi s Hq Hmk)
      as (created & _ & Hok & Hrun).
    fold d in Hok, Hrun. fold cmd in Hrun.
    exists created. eexists. split; [exact Hok|]. split; [done|].
    split; [apply node_at_after_mkdir|].
    split; [apply add_dirs_chain_dirs|].
    rewrite Hrun. cbn [fs trace]. split; [|split].
    + destruct (run_process env cmd); cbn [snd trace]; rewrite app_assoc; eauto.
    + by destruct (run_process env cmd).
    + intros rc -> Hrc. apply Z.eqb_neq in Hrc. rewrite Hrc.
      by rewrite app_assoc.
  - intros Hmk.
    destruct (pdf_to_images_blocked env pdf_path output_dir dpi s Hmk)
      as (e & s' & Hfail & Hrun).
    destruct (mkdir_walk_trace env (root d) [] (names d) s) as (created & Htr & _).
    fold (mkdir_parents_exist_ok env d s) in Htr. fold d in Hfail.
    rewrite Hfail in Htr. by exists e, s', created.
Qed.

Lemma pdf_to_images_makes_directory_first_witness :
  let env := with_processes example_env (λ _, Exited 1) in
  let d := Path_of (PStr (lit "out/slides")) in
  let cmd := convert_cmd (PStr (lit "talk.pdf")) d 300 in
  creatable example_state d = true
  ∧ os_quiet env
  ∧ ∃ created s1,
      mkdir_parents_exist_ok env d example_state = (Ok tt, s1)
      ∧ trace s1 = trace example_state ++ map EvMkdir created
      ∧ node_at s1 d = Some Dir
      ∧ Forall (λ q, fs s1 !! q = Some Dir) (dir_chain d)
      ∧ (∃ rest, trace (pdf_to_images env (PStr (lit "talk.pdf"))
                          (PStr (lit "out/slides")) 300 example_state).2
                 = trace s1 ++ EvRun cmd :: rest)
      ∧ fs (pdf_to_images env (PStr (lit "talk.pdf"))
              (PStr (lit "out/slides")) 300 example_state).2
        = match run_process env cmd with
          | Exited _ => process_effect env cmd (fs s1)
          | _ => fs s1
          end
      ∧ ∀ rc, run_process env cmd = Exited rc → rc ≠ 0%Z →
          pdf_to_images env (PStr (lit "talk.pdf")) (PStr (lit "out/slides")) 300
            example_state
          = (Ok tt,
             mkState (process_effect env cmd (fs s1))
               (trace s1 ++ [EvRun cmd;
                             EvPrint ([BALLOT_X] ++ lit " Failed to convert PDF: "
                                      ++ str_CalledProcessError env cmd rc)])).
Proof.
  split; [vm_compute; reflexivity|]. split; [intros c; reflexivity|].
  apply (proj1 (pdf_to_images_makes_directory_first
                  (with_processes example_env (λ _, Exited 1))
                  (PStr (lit "talk.pdf")) (PStr (lit "out/slides")) 300 example_state)).
  - vm_compute. reflexivity.
  - intros c. reflexivity.
Defined.

(** C9. The handler of the invoker accepts only [CalledProcessError]:
    once the output directory is in place, when the conversion command
    cannot be launched because its binary is missing,
    [FileNotFoundError] escapes the invoker and no line is printed after
    the launch. The dependency prober, facing the same missing binary
    (and able to launch its other query), returns normally and reports
    the tool as unavailable. *)
Theorem pdf_to_images_missing_binary env pdf_path output_dir dpi s :
  let d := Path_of output_dir in
  let cmd := convert_cmd pdf_path d dpi in
  os_quiet env →
  creatable s d = true →
  run_process env cmd = NotFound →
  (∃ created,
     pdf_to_images env pdf_path output_dir dpi s
     = (Raise FileNotFoundError,
        mkState (add_dirs (dir_chain d) (fs s))
          (trace s ++ map EvMkdir created ++ [EvRun cmd])))
  ∧ (run_process env [lit "convert"; lit "--version"] = NotFound →
     launches env [lit "gs"; lit "--version"] →
     ∃ available s',
       check_dependencies env s = (Ok available, s')
       ∧ available !! lit "ImageMagick" = Some false).
Proof.
  intros d cmd Hq Hmk Hmissing. split.
  - destruct (pdf_to_images_run env pdf_path output_dir dpi s Hq Hmk)
      as (created & _ & _ & Hrun).
    fold d in Hrun. fold cmd in Hrun. rewrite Hmissing in Hrun. eauto.
  - intros Hprobe Hgs.
    destruct (check_dependencies_cases env s)
      as [(s' & Hrun & _)|(f & s' & t & _ & [Hf|Hf] & _)].
    + eexists _, _. split; [exact Hrun|].
      rewrite deps_lookup. unfold convert_version. by rewrite Hprobe.
    + unfold convert_version in Hf. by rewrite Hprobe in Hf.
    + by destruct (Hgs f).
Qed.

Lemma pdf_to_images_missing_binary_witness :
  let env := with_processes example_env (λ _, NotFound) in
  let d := Path_of (PStr (lit "out/slides")) in
  let cmd := convert_cmd (PStr (lit "talk.pdf")) d 300 in
  os_quiet env
  ∧ creatable example_state d = true
  ∧ run_process env cmd = NotFound
  ∧ (∃ created,
       pdf_to_images env (PStr (lit "talk.pdf")) (PStr (lit "out/slides")) 300 example_state
       = (Raise FileNotFoundError,
          mkState (add_dirs (dir_chain d) (fs example_state))
            (trace example_state ++ map EvMkdir created ++ [EvRun cmd])))
  ∧ (run_process env [lit "convert"; lit "--version"] = NotFound →
     launches env [lit "gs"; lit "--version"] →
     ∃ available s',
       check_dependencies env example_state = (Ok available, s')
       ∧ available !! lit "ImageMagick" = Some false).
Proof.
  split; [intros c; reflexivity|].
  split; [vm_compute; reflexivity|]. split; [reflexivity|].
  apply (pdf_to_images_missing_binary
           (with_processes example_env (λ _, NotFound))
           (PStr (lit "talk.pdf")) (PStr (lit "out/slides")) 300 example_state).
  - intros c. reflexivity.
  - vm_compute. reflexivity.
  - reflexivity.
Defined.

(** ** An input that is already a ".json" file *)

Lemma rfind_dot_json st : rfind DOT (st ++ lit ".json") = Some (length st).
Proof.
  induction st as [|c st IH]; [reflexivity|].
  simpl length. rewrite <- app_comm_cons. simpl rfind. by rewrite IH.
Qed.

Lemma stem_of_json_name p st :
  name p = st ++ lit ".json" → st ≠ [] → stem p = st.
Proof.
  intros Hname Hst. unfold stem, suffix_index.
  rewrite Hname, rfind_dot_json.
  assert ((0 <? length st)%nat && (length st + 1 <? length (st ++ lit ".json"))%nat
          = true) as ->.
  { apply andb_true_iff. split; apply Nat.ltb_lt.
    - destruct st; [done|simpl; lia].
    - rewrite length_app. simpl. lia. }
  by rewrite take_app_length.
Qed.

Lemma json_path_fixed p st :
  name p = st ++ lit ".json" → st ≠ [] → json_path p = p.
Proof.
  intros Hname Hst. unfold json_path.
  rewrite (stem_of_json_name p st Hname Hst), <- Hname.
  assert (name p ≠ []) as Hne.
  { rewrite Hname. intros H%(f_equal length). rewrite length_app in H.
    simpl in H. lia. }
  rewrite <- (names_snoc p Hne). by destruct p.
Qed.

(** Only the last extension is replaced. *)
Example with_suffix_replaces_last_extension :
  with_suffix (Path_of_str (lit "decks/talk.tar.gz")) (lit ".json")
  = Ok (Path_of_str (lit "decks/talk.tar.json")).
Proof. vm_compute. reflexivity. Qed.

(** C10, as stated, fails: the name ".json" ends in ".json" but has no
    extension for [pathlib]; the derived path is ".json.json", and the
    input file keeps its content. *)
Lemma dot_json_input_not_overwritten :
  let p := Path_of_str (lit ".json") in
  let s := mkState (<[lit ".json" := File (lit "{}")]> ∅) [] in
  let r := main example_env [lit "generate_test_references.py"; lit ".json"] s in
  name p = [] ++ lit ".json"
  ∧ with_suffix p (lit ".json") = Ok (Path_of_str (lit ".json.json"))
  ∧ Path_str (Path_of_str (lit ".json.json")) ≠ Path_str p
  ∧ r.1 = Ok tt
  ∧ fs r.2 !! lit ".json" = Some (File (lit "{}"))
  ∧ fs r.2 !! lit ".json.json" = Some (File (metadata_text example_env (PPath p))).
Proof.
  repeat split; try (vm_compute; reflexivity).
  vm_compute. discriminate.
Qed.

(** C10, amended. When the final component of the input is a non-empty
    stem followed by ".json", replacing the extension gives back the
    input path, and a run on such an input, when it is a regular file in
    a directory, the output directory can be created, the version queries
    can be launched and leave the file system alone, and the operating
    system reports no error of its own, replaces the content of the input
    file by the metadata record. *)
Theorem json_input_is_overwritten env argv arg s st old :
  let p := Path_of_str arg in
  probe_benign env →
  os_quiet env →
  argv !! 1%nat = Some arg →
  name p = st ++ lit ".json" →
  st ≠ [] →
  fs s !! Path_str p = Some (File old) →
  node_at s (parent p) = Some Dir →
  creatable s (output_dir_of p) = true →
  with_suffix p (lit ".json") = Ok p
  ∧ ∃ s',
      main env argv s = (Ok tt, s')
      ∧ fs s' !! Path_str p
        = Some (File (json_dumps 2 (JDict (metadata env (PPath p))))).
Proof.
  intros p Hb Hq Harg Hname Hst Hfile Hpar Hmk.
  pose proof (json_path_fixed p st Hname Hst) as Hfix.
  assert (name p ≠ []) as Hne.
  { rewrite Hname. intros H%(f_equal length). rewrite length_app in H.
    simpl in H. lia. }
  split; [by rewrite with_suffix_ok, Hfix|].
  assert (is_Some (node_at s p)) as Hex.
  { unfold node_at. destruct (names p) eqn:E; [by eexists|].
    rewrite Hfile. by eexists. }
  assert (fs s !! Path_str (json_path p) ≠ Some Dir) as Hdir
    by (by rewrite Hfix, Hfile).
  assert (node_at (mkState (add_dirs (dir_chain (output_dir_of p)) (fs s)) [])
            (parent p) = Some Dir) as Hpar'.
  { apply node_at_add_dirs with (t := trace s). by destruct s. }
  destruct (main_run env argv arg s Hb Hq Harg Hex Hpar' Hne Hmk Hdir)
    as (created & _ & Hrun).
  fold p in Hrun. rewrite Hfix in Hrun.
  eexists. split; [exact Hrun|]. cbn [fs]. apply lookup_insert_eq.
Qed.

Lemma json_input_is_overwritten_witness :
  let argv := [lit "generate_test_references.py"; lit "data/report.json"] in
  let p := Path_of_str (lit "data/report.json") in
  let s := mkState (<[lit "data/report.json" := File (lit "[1, 2]")]>
                      (<[lit "data" := Dir]> ∅)) [] in
  probe_benign example_env
  ∧ os_quiet example_env
  ∧ argv !! 1%nat = Some (lit "data/report.json")
  ∧ name p = lit "report" ++ lit ".json"
  ∧ lit "report" ≠ []
  ∧ fs s !! Path_str p = Some (File (lit "[1, 2]"))
  ∧ node_at s (parent p) = Some Dir
  ∧ creatable s (output_dir_of p) = true
  ∧ with_suffix p (lit ".json") = Ok p
  ∧ ∃ s',
      main example_env argv s = (Ok tt, s')
      ∧ fs s' !! Path_str p
        = Some (File (json_dumps 2 (JDict (metadata example_env (PPath p))))).
Proof.
  split; [apply example_env_benign|]. split; [apply example_env_quiet|].
  split; [reflexivity|]. split; [vm_compute; reflexivity|].
  split; [vm_compute; discriminate|]. split; [vm_compute; reflexivity|].
  split; [vm_compute; reflexivity|]. split; [vm_compute; reflexivity|].
  apply (json_input_is_overwritten example_env
           [lit "generate_test_references.py"; lit "data/report.json"]
           (lit "data/report.json")
           (mkState (<[lit "data/report.json" := File (lit "[1, 2]")]>
                       (<[lit "data" := Dir]> ∅)) [])
           (lit "report") (lit "[1, 2]")).
  - apply example_env_benign.
  - apply example_env_quiet.
  - reflexivity.
  - vm_compute. reflexivity.
  - vm_compute. discriminate.
  - vm_compute. reflexivity.
  - vm_compute. reflexivity.
  - vm_compute. reflexivity.
Defined.

(** * Further properties *)

(** ** More on the dependency prober *)

(** X2. When both version queries can be launched (each runs or its
    binary is missing) and leave the file system alone, the prober
    queries [convert] first and [gs] second, the second whatever the
    first answered, and prints one status line per tool right after its
    query; a missing binary and a non-zero exit give the same "is not
    installed" line. *)
Theorem check_dependencies_reports env s :
  let line (tool : pystr) (cmd : list pystr) :=
    match run_process env cmd with
    | Exited 0 => [CHECK_MARK] ++ lit " " ++ tool ++ lit " is installed"
    | _ => [BALLOT_X] ++ lit " " ++ tool ++ lit " is not installed"
    end in
  probe_benign env →
  (check_dependencies env s).2
  = mkState (fs s)
      (trace s
       ++ [ EvRun [lit "convert"; lit "--version"];
            EvPrint (line (lit "ImageMagick") [lit "convert"; lit "--version"]);
            EvRun [lit "gs"; lit "--version"];
            EvPrint (line (lit "Ghostscript") [lit "gs"; lit "--version"]) ]).
Proof.
  intros line Hb. rewrite check_dependencies_spec by done. cbn [snd].
  unfold deps_trace, status_line, outcome_available, line, convert_version, gs_version.
  destruct (run_process env [lit "convert"; lit "--version"]) as [|?|[|?|?]];
    destruct (run_process env [lit "gs"; lit "--version"]) as [|?|[|?|?]]; reflexivity.
Qed.

Lemma check_dependencies_reports_witness :
  let line (tool : pystr) (cmd : list pystr) :=
    match run_process example_env cmd with
    | Exited 0 => [CHECK_MARK] ++ lit " " ++ tool ++ lit " is installed"
    | _ => [BALLOT_X] ++ lit " " ++ tool ++ lit " is not installed"
    end in
  probe_benign example_env
  ∧ (check_dependencies example_env example_state).2
    = mkState (fs example_state)
        (trace example_state
         ++ [ EvRun [lit "convert"; lit "--version"];
              EvPrint (line (lit "ImageMagick") [lit "convert"; lit "--version"]);
              EvRun [lit "gs"; lit "--version"];
              EvPrint (line (lit "Ghostscript") [lit "gs"; lit "--version"]) ]).
Proof.
  split; [apply example_env_benign|].
  apply (check_dependencies_reports example_env example_state).
  apply example_env_benign.
Defined.

(** ** More on the rasterizer invoker *)

(** X3. When the output directory can be created, the operating system
    reports no error of its own, and the conversion command exits with
    status 0, the invoker returns normally after printing the success
    line, which names the directory by its normalised path text; the
    file system is the one the conversion process leaves. *)
Theorem pdf_to_images_success env pdf_path output_dir dpi s :
  let d := Path_of output_dir in
  let cmd := convert_cmd pdf_path d dpi in
  os_quiet env →
  creatable s d = true →
  run_process env cmd = Exited 0 →
  ∃ created,
    pdf_to_images env pdf_path output_dir dpi s
    = (Ok tt,
       mkState (process_effect env cmd (add_dirs (dir_chain d) (fs s)))
         (trace s ++ map EvMkdir created
          ++ [EvRun cmd;
              EvPrint ([CHECK_MARK] ++ lit " Converted PDF to images in " ++ Path_str d)])).
Proof.
  intros d cmd Hq Hmk Hrun.
  destruct (pdf_to_images_run env pdf_path output_dir dpi s Hq Hmk)
    as (created & _ & _ & Hres).
  exists created. fold d in Hres. fold cmd in Hres. by rewrite Hrun in Hres.
Qed.

Lemma pdf_to_images_success_witness :
  let env := with_processes example_env (λ _, Exited 0) in
  let d := Path_of (PStr (lit "out//slides/")) in
  let cmd := convert_cmd (PStr (lit "talk.pdf")) d 300 in
  os_quiet env
  ∧ creatable example_state d = true
  ∧ run_process env cmd = Exited 0
  ∧ ∃ created,
      pdf_to_images env (PStr (lit "talk.pdf")) (PStr (lit "out//slides/")) 300 example_state
      = (Ok tt,
         mkState (process_effect env cmd (add_dirs (dir_chain d) (fs example_state)))
           (trace example_state ++ map EvMkdir created
            ++ [EvRun cmd;
                EvPrint ([CHECK_MARK] ++ lit " Converted PDF to images in "
                         ++ Path_str d)])).
Proof.
  split; [intros c; reflexivity|].
  split; [vm_compute; reflexivity|]. split; [reflexivity|].
  apply (pdf_to_images_success
           (with_processes example_env (λ _, Exited 0))
           (PStr (lit "talk.pdf")) (PStr (lit "out//slides/")) 300 example_state).
  - intros c. reflexivity.
  - vm_compute. reflexivity.
  - reflexivity.
Defined.

Lemma mkdir_walk_fs env rt above todo s q :
  fs (mkdir_walk env rt above todo s).2 !! q = fs s !! q
  ∨ (fs s !! q = None
     ∧ fs (mkdir_walk env rt above todo s).2 !! q = Some Dir
     ∧ q ∈ chain_from rt above todo).
Proof.
  revert above s. induction todo as [|n rest IH]; intros above s; simpl; [by left|].
  set (q0 := Path_str (mkPath rt (above ++ [n]))).
  destruct (fs s !! q0) as [[c|]|] eqn:E.
  - by left.
  - destruct (IH (above ++ [n]) s) as [H|(H1 & H2 & H3)]; [by left|].
    right. split; [done|]. split; [done|]. apply elem_of_cons. by right.
  - destruct (os_error env _); [by left|].
    set (s1 := mkState _ _).
    assert (fs s1 = <[q0 := Dir]> (fs s)) as Hs1 by done.
    destruct (IH (above ++ [n]) s1) as [H|(H1 & H2 & H3)].
    + rewrite H, Hs1. destruct (decide (q = q0)) as [->|Hne].
      * right. rewrite lookup_insert_eq. split; [done|]. split; [done|].
        apply elem_of_cons. by left.
      * left. by rewrite lookup_insert_ne.
    + right. rewrite Hs1 in H1. destruct (decide (q = q0)) as [->|Hne].
      * by rewrite lookup_insert_eq in H1.
      * rewrite lookup_insert_ne in H1 by done. split; [done|]. split; [done|].
        apply elem_of_cons. by right.
Qed.

Lemma mkdir_walk_exn env rt above todo s e s' :
  mkdir_walk env rt above todo s = (Raise e, s') →
  e = FileExistsError ∨ e = NotADirectoryError
  ∨ ∃ q f, os_error env (OsMkdir q) = Some f ∧ e = exn_of_fault f.
Proof.
  revert above s. induction todo as [|n rest IH]; intros above s; simpl; [done|].
  destruct (fs s !! Path_str (mkPath rt (above ++ [n]))) as [[c|]|].
  - intros [= <- <-]. destruct rest; auto.
  - apply IH.
  - destruct (os_error env _) as [f|] eqn:E; [|apply IH].
    intros [= <- <-]. right. right. eauto.
Qed.

(** ** More on the metadata writer *)

Lemma generate_reference_data_exn env x s e s' :
  generate_reference_data env x s = (Raise e, s') →
  e = ValueError ∨ e = FileNotFoundError ∨ e = NotADirectoryError
  ∨ e = IsADirectoryError ∨ ∃ f, e = exn_of_fault f.
Proof.
  destruct (decide (name (Path_of x) = [])) as [Hname|Hname].
  { rewrite generate_reference_data_empty_name by done. intros [= <- <-]. auto. }
  rewrite (generate_reference_data_unfold _ _ _ Hname).
  destruct (node_at s (parent (Path_of x))) as [[c|]|];
    [intros [= <- <-]; auto| |intros [= <- <-]; auto].
  destruct (fs s !! Path_str (json_path (Path_of x))) as [[c|]|];
    [|intros [= <- <-]; auto|];
    (destruct (os_error env _) as [f|]; [|done]);
    intros [= <- <-]; do 4 right; eauto.
Qed.



(** ** More on the entry point *)

Lemma Path_of_str_no_sep_in_name arg : SEP ∉ name (Path_of_str arg).
Proof.
  destruct (decide (name (Path_of_str arg) = [])) as [->|Hne].
  - apply not_elem_of_nil.
  - pose proof (Path_of_str_names arg) as H.
    eapply Forall_forall in H; [|by apply name_in_names]. tauto.
Qed.

Lemma Path_of_str_nameless arg :
  name (Path_of_str arg) = [] → names (Path_of_str arg) = [].
Proof.
  unfold name. intros Hname.
  destruct (last (names (Path_of_str arg))) as [x|] eqn:E.
  - simpl in Hname. subst x. pose proof (Path_of_str_names arg) as H.
    apply last_Some in E as [l' E]. rewrite E in H.
    apply Forall_app in H as [_ H]. apply Forall_cons in H as [[_ H] _]. done.
  - by apply last_None.
Qed.

Lemma output_dir_shape arg :
  output_dir_of (Path_of_str arg)
  = mkPath [] ([lit "tests"; lit "references"]
               ++ (if is_component (stem (Path_of_str arg))
                   then [stem (Path_of_str arg)] else [])).
Proof.
  unfold output_dir_of, joinpath.
  rewrite Path_of_str_simple by apply stem_no_sep, Path_of_str_no_sep_in_name.
  reflexivity.
Qed.

(** X8. Whatever the argument, the path of the output directory is
    relative and is made of the components "tests", "references" and at
    most one more, the stem of the input name, which holds no separator:
    neither an absolute argument nor one with several components adds
    further components. (The stem can be "..", as for the argument
    "decks/..": the directory this path then resolves to is [tests].) *)
Theorem output_dir_below_references arg :
  let p := Path_of_str arg in
  root (output_dir_of p) = []
  ∧ names (output_dir_of p)
    = [lit "tests"; lit "references"]
      ++ (if is_component (stem p) then [stem p] else [])
  ∧ SEP ∉ stem p.
Proof.
  intros p. unfold p. rewrite output_dir_shape.
  split; [done|]. split; [done|].
  apply stem_no_sep, Path_of_str_no_sep_in_name.
Qed.

(** X9. On an existing input held by a directory, when the version
    queries can be launched and leave the file system alone and the
    operating system reports no error of its own (such as a name too
    long), the run ends with exit status 0 exactly when the input has a
    final component, no regular file blocks the output directory, and the
    derived ".json" path is not a directory. *)
Theorem main_exit_status env argv arg s :
  let p := Path_of_str arg in
  probe_benign env →
  os_quiet env →
  argv !! 1%nat = Some arg →
  is_Some (node_at s p) →
  node_at s (parent p) = Some Dir →
  exit_status (main env argv s).1 = 0%Z
  ↔ name p ≠ []
    ∧ creatable s (output_dir_of p) = true
    ∧ fs s !! Path_str (json_path p) ≠ Some Dir.
Proof.
  intros p Hb Hq Harg Hex Hpar. split.
  - intros Hstatus. destruct (main env argv s) as [[[]|e] s'] eqn:Hrun; [|done].
    destruct (main_ok_inv _ _ _ _ _ (proj2 (proj2 Hb)) Harg Hex Hrun)
      as (H1 & H2 & H3 & _). done.
  - intros (Hname & Hmk & Hdir).
    assert (node_at (mkState (add_dirs (dir_chain (output_dir_of p)) (fs s)) [])
              (parent p) = Some Dir) as Hpar'.
    { apply node_at_add_dirs with (t := trace s). by destruct s. }
    destruct (main_run env argv arg s Hb Hq Harg Hex Hpar' Hname Hmk Hdir)
      as (created & _ & ->).
    done.
Qed.

Lemma main_exit_status_witness :
  let argv := [lit "generate_test_references.py"; lit "decks/talk.pptx"] in
  let p := Path_of_str (lit "decks/talk.pptx") in
  probe_benign example_env
  ∧ os_quiet example_env
  ∧ argv !! 1%nat = Some (lit "decks/talk.pptx")
  ∧ is_Some (node_at example_state p)
  ∧ node_at example_state (parent p) = Some Dir
  ∧ (exit_status (main example_env argv example_state).1 = 0%Z
     ↔ name p ≠ []
       ∧ creatable example_state (output_dir_of p) = true
       ∧ fs example_state !! Path_str (json_path p) ≠ Some Dir).
Proof.
  split; [apply example_env_benign|]. split; [apply example_env_quiet|].
  split; [reflexivity|]. split; [vm_compute; eexists; reflexivity|].
  split; [vm_compute; reflexivity|].
  apply (main_exit_status example_env
           [lit "generate_test_references.py"; lit "decks/talk.pptx"]
           (lit "decks/talk.pptx") example_state).
  - apply example_env_benign.
  - apply example_env_quiet.
  - reflexivity.
  - vm_compute. eexists. reflexivity.
  - vm_compute. reflexivity.
Defined.

Lemma exn_of_fault_not_lookup f :
  exn_of_fault f ≠ IndexError ∧ ∀ k, exn_of_fault f ≠ KeyError k.
Proof. by destruct f. Qed.

(** The exceptions of the entry point after the probe. *)
Lemma main_rest_exn env argv s e :
  (main_rest env argv (deps_of env) s).1 = Raise e →
  e ≠ IndexError ∧ ∀ k, e ≠ KeyError k.
Proof.
  intros Hrun. destruct (decide (length argv < 2)%nat) as [Hlen|Hlen].
  { by rewrite (main_rest_usage _ _ _ _ Hlen) in Hrun. }
  destruct (lookup_lt_is_Some_2 argv 1) as [arg Harg]; [lia|].
  destruct (os_error env (OsStat (Path_str (Path_of_str arg)))) as [f|] eqn:Hstat.
  { rewrite (main_rest_stat_fault _ _ _ _ _ _ Harg Hstat) in Hrun.
    injection Hrun as <-. apply exn_of_fault_not_lookup. }
  destruct (node_at s (Path_of_str arg)) as [nd|] eqn:Hnode.
  2:{ by rewrite (main_rest_not_found _ _ _ _ _ Harg Hstat Hnode) in Hrun. }
  rewrite (main_rest_existing _ _ _ _ Harg Hstat) in Hrun by (rewrite Hnode; by eexists).
  destruct (mkdir_parents_exist_ok _ _ _) as [[[]|e1] s1] eqn:Hmk.
  2:{ simpl in Hrun. injection Hrun as ->.
      apply mkdir_walk_exn in Hmk as [->|[->|(q & f & _ & ->)]];
        [done|done|apply exn_of_fault_not_lookup]. }
  cbv zeta in Hrun.
  destruct (generate_reference_data _ _ _) as [[[]|e2] s3] eqn:Hgen; [done|].
  simpl in Hrun. injection Hrun as ->.
  apply generate_reference_data_exn in Hgen as [->|[->|[->|[->|(f & ->)]]]];
    try done. apply exn_of_fault_not_lookup.
Qed.

(** X10. The two lookups of the entry point never fail: whatever the
    environment, the arguments and the file system, no [IndexError] (from
    [sys.argv[1]]) and no [KeyError] (from [deps['ImageMagick']]) escapes
    the entry point. *)
Theorem main_escaping_exceptions env argv s e :
  (main env argv s).1 = Raise e →
  e ≠ IndexError ∧ ∀ k, e ≠ KeyError k.
Proof.
  rewrite main_split.
  destruct (check_dependencies_cases env (mkState (fs s) (trace s ++ header)))
    as [(s1 & Hok & _)|(f & s1 & t & Hfail & _)].
  - rewrite (bind_ok _ _ _ _ _ Hok). apply main_rest_exn.
  - rewrite (bind_raise _ _ _ _ _ Hfail). intros [= <-].
    apply exn_of_fault_not_lookup.
Qed.

Lemma main_escaping_exceptions_witness :
  (main example_env [lit "generate_test_references.py"; lit "/"] example_state).1
  = Raise ValueError
  ∧ ValueError ≠ IndexError ∧ ∀ k, ValueError ≠ KeyError k.
Proof.
  split; [vm_compute; reflexivity|].
  apply (main_escaping_exceptions example_env
           [lit "generate_test_references.py"; lit "/"] example_state ValueError).
  vm_compute. reflexivity.
Defined.

Lemma effect_if_run_read_only env cmd m :
  read_only env cmd → effect_if_run env cmd m = m.
Proof. intros H. unfold effect_if_run. by destruct (run_process env cmd). Qed.

Lemma main_rest_preserves env argv s q v :
  fs s !! q = Some v →
  (∀ arg, argv !! 1%nat = Some arg → q ≠ Path_str (json_path (Path_of_str arg))) →
  fs (main_rest env argv (deps_of env) s).2 !! q = Some v.
Proof.
  intros Hq Hne. destruct (decide (length argv < 2)%nat) as [Hlen|Hlen].
  { by rewrite (main_rest_usage _ _ _ _ Hlen). }
  destruct (lookup_lt_is_Some_2 argv 1) as [arg Harg]; [lia|].
  specialize (Hne arg Harg).
  destruct (os_error env (OsStat (Path_str (Path_of_str arg)))) as [f|] eqn:Hstat.
  { by rewrite (main_rest_stat_fault _ _ _ _ _ _ Harg Hstat). }
  destruct (node_at s (Path_of_str arg)) as [nd|] eqn:Hnode.
  2:{ by rewrite (main_rest_not_found _ _ _ _ _ Harg Hstat Hnode). }
  rewrite (main_rest_existing _ _ _ _ Harg Hstat) by (rewrite Hnode; by eexists).
  set (p := Path_of_str arg) in *. set (d := output_dir_of p).
  pose proof (mkdir_walk_fs env (root d) [] (names d) s q) as Hfs.
  fold (mkdir_parents_exist_ok env d s) in Hfs.
  destruct (mkdir_parents_exist_ok env d s) as [[[]|e1] s1];
    cbn [snd] in Hfs.
  2:{ cbn [snd]. destruct Hfs as [->|(H1 & _)]; [done|by rewrite H1 in Hq]. }
  assert (fs s1 !! q = Some v) as Hs1.
  { destruct Hfs as [->|(H1 & _)]; [done|by rewrite H1 in Hq]. }
  cbv zeta. set (s2 := mkState (fs s1) _).
  destruct (generate_reference_data_cases env (PPath p) s2)
    as [(e & ->)|(_ & _ & _ & ->)]; [done|].
  cbn [snd fs Path_of]. by rewrite lookup_insert_ne.
Qed.

(** X11. When the version queries leave the file system alone, in every
    outcome of a run, each file-system entry that existed before is still
    there with the same content afterwards, except possibly the entry at
    the ".json" path derived from the argument: the tool deletes nothing
    and rewrites no other file. *)
Theorem main_preserves_entries env argv s q v :
  probe_read_only env →
  fs s !! q = Some v →
  (∀ arg, argv !! 1%nat = Some arg → q ≠ Path_str (json_path (Path_of_str arg))) →
  fs (main env argv s).2 !! q = Some v.
Proof.
  intros [Hr1 Hr2] Hq Hne. rewrite main_split.
  destruct (check_dependencies_cases env (mkState (fs s) (trace s ++ header)))
    as [(s1 & Hok & _ & Hfs & _)|(f & s1 & t & Hfail & _ & _ & _ & _ & Hfs)];
    cbn [fs] in Hfs.
  - rewrite (bind_ok _ _ _ _ _ Hok). apply main_rest_preserves; [|done].
    by rewrite Hfs, !effect_if_run_read_only.
  - rewrite (bind_raise _ _ _ _ _ Hfail). cbn [snd].
    destruct Hfs as [->| ->]; [done|]. by rewrite effect_if_run_read_only.
Qed.

Lemma main_preserves_entries_witness :
  let argv := [lit "generate_test_references.py"; lit "decks/talk.pptx"] in
  probe_read_only example_env
  ∧ fs example_state !! lit "decks/talk.pptx" = Some (File (lit "PK"))
  ∧ (∀ arg, argv !! 1%nat = Some arg →
       lit "decks/talk.pptx" ≠ Path_str (json_path (Path_of_str arg)))
  ∧ fs (main example_env argv example_state).2 !! lit "decks/talk.pptx"
    = Some (File (lit "PK")).
Proof.
  assert (∀ arg,
            [lit "generate_test_references.py"; lit "decks/talk.pptx"] !! 1%nat = Some arg →
            lit "decks/talk.pptx" ≠ Path_str (json_path (Path_of_str arg))) as Hne.
  { intros arg [= <-]. vm_compute. discriminate. }
  split; [apply example_env_benign|].
  split; [vm_compute; reflexivity|]. split; [exact Hne|].
  apply (main_preserves_entries example_env
           [lit "generate_test_references.py"; lit "decks/talk.pptx"] example_state
           (lit "decks/talk.pptx") (File (lit "PK"))).
  - apply example_env_benign.
  - vm_compute. reflexivity.
  - exact Hne.
Defined.

(** X12. An argument without a final component (the empty string, ".",
    "/", "//", "./" and the like) names an anchor, a directory that
    always exists; when the version queries can be launched and leave the
    file system alone and the operating system reports no error of its
    own, the run on it creates [tests/references], prints the two
    processing lines, and then ends with an uncaught [ValueError], exit
    status 1. *)
Theorem main_on_nameless_input env argv arg s :
  let p := Path_of_str arg in
  probe_benign env →
  os_quiet env →
  argv !! 1%nat = Some arg →
  name p = [] →
  creatable s REFERENCES = true →
  ∃ created,
    main env argv s
    = (Raise ValueError,
       mkState (add_dirs [lit "tests"; lit "tests/references"] (fs s))
         (trace s ++ header ++ deps_trace env ++ map EvMkdir created
          ++ [EvPrint (10 :: lit "Processing: " ++ Path_str p);
              EvPrint (lit "Output directory: tests/references")]))
    ∧ exit_status (main env argv s).1 = 1%Z.
Proof.
  intros p Hb Hq Harg Hname Hmk.
  assert (output_dir_of p = REFERENCES) as Hout.
  { unfold p. rewrite output_dir_shape. fold p.
    assert (stem p = []) as ->; [|reflexivity].
    unfold stem. by rewrite Hname. }
  assert (is_Some (node_at s p)) as Hex.
  { unfold node_at, p. rewrite Path_of_str_nameless by done. by eexists. }
  rewrite (main_existing _ _ _ _ Hb (Hq _) Harg Hex). fold p. rewrite Hout.
  destruct (mkdir_after_probe env _ _ Hq Hmk) as (created & -> & _).
  exists created. cbv zeta.
  rewrite generate_reference_data_empty_name by done.
  split; [|done]. unfold processing_lines. rewrite Hout.
  unfold after_probe. cbn [trace fs]. by rewrite <- !app_assoc.
Qed.

Lemma main_on_nameless_input_witness :
  let argv := [lit "generate_test_references.py"; lit ""] in
  let p := Path_of_str (lit "") in
  probe_benign example_env
  ∧ os_quiet example_env
  ∧ argv !! 1%nat = Some (lit "")
  ∧ name p = []
  ∧ creatable example_state REFERENCES = true
  ∧ ∃ created,
      main example_env argv example_state
      = (Raise ValueError,
         mkState (add_dirs [lit "tests"; lit "tests/references"] (fs example_state))
           (trace example_state ++ header ++ deps_trace example_env
            ++ map EvMkdir created
            ++ [EvPrint (10 :: lit "Processing: " ++ Path_str p);
                EvPrint (lit "Output directory: tests/references")]))
      ∧ exit_status (main example_env argv example_state).1 = 1%Z.
Proof.
  split; [apply example_env_benign|]. split; [apply example_env_quiet|].
  split; [reflexivity|]. split; [reflexivity|]. split; [vm_compute; reflexivity|].
  apply (main_on_nameless_input example_env
           [lit "generate_test_references.py"; lit ""] (lit "") example_state).
  - apply example_env_benign.
  - apply example_env_quiet.
  - reflexivity.
  - reflexivity.
  - vm_compute. reflexivity.
Defined.

Lemma elem_of_app_right {A} (x : A) l1 l2 : x ∈ l2 → x ∈ l1 ++ l2.
Proof. intros H. apply elem_of_app. by right. Qed.

Lemma Path_str_child d x :
  names d ≠ [] → SEP ∉ x → is_component x = true →
  Path_str (joinpath d x) = Path_str d ++ [SEP] ++ x.
Proof.
  intros Hd Hx Hc. unfold joinpath. rewrite (Path_of_str_simple x Hx), Hc.
  cbn [root names]. rewrite Path_str_snoc, join_dir_prefix by done.
  unfold Path_str. destruct (root d), (names d); try done;
    by rewrite <- !app_assoc.
Qed.

(** X6. When ImageMagick is available and the version queries leave the
    file system alone, the [convert] command line that a completed run
    prints is the command [pdf_to_images] would launch for the run's
    output directory, at 300 dots per inch, on the document "<pdf_file>",
    joined by spaces, but without its two arguments [-quality 100]. *)
Theorem main_hint_is_convert_cmd env argv arg s s' :
  let d := output_dir_of (Path_of_str arg) in
  let cmd := convert_cmd (PStr (lit "<pdf_file>")) d 300 in
  probe_read_only env →
  argv !! 1%nat = Some arg →
  is_Some (node_at s (Path_of_str arg)) →
  run_process env [lit "convert"; lit "--version"] = Exited 0 →
  main env argv s = (Ok tt, s') →
  drop 3 (take 5 cmd) = [lit "-quality"; lit "100"]
  ∧ EvPrint (join (lit " ") (take 3 cmd ++ drop 5 cmd)) ∈ trace s'.
Proof.
  intros d cmd Hro Harg Hex Hconvert Hrun. split; [done|].
  destruct (main_ok_inv _ _ _ _ _ Hro Harg Hex Hrun)
    as (_ & _ & _ & _ & created & _ & ->). cbn [trace].
  assert (join (lit " ") (take 3 cmd ++ drop 5 cmd)
          = lit "convert -density 300 <pdf_file> " ++ Path_str d ++ lit "/slide-%d.png")
    as ->.
  { unfold cmd, convert_cmd. cbn [take drop app str_of].
    rewrite Path_str_child.
    - reflexivity.
    - unfold d. rewrite output_dir_shape. done.
    - apply (bool_decide_unpack _). by vm_compute.
    - by vm_compute. }
  assert (EvPrint (lit "convert -density 300 <pdf_file> " ++ Path_str d
                   ++ lit "/slide-%d.png") ∈ closing_lines env (Path_of_str arg)) as Hin.
  { unfold closing_lines, convert_version. rewrite Hconvert.
    cbn [outcome_available Z.eqb]. fold d.
    apply elem_of_app. right. apply elem_of_app. left.
    apply elem_of_cons. right. apply elem_of_cons. by left. }
  do 6 apply elem_of_app_right. exact Hin.
Qed.

Lemma main_hint_is_convert_cmd_witness :
  let argv := [lit "generate_test_references.py"; lit "decks/talk.pptx"] in
  let d := output_dir_of (Path_of_str (lit "decks/talk.pptx")) in
  let cmd := convert_cmd (PStr (lit "<pdf_file>")) d 300 in
  let s' := (main example_env argv example_state).2 in
  probe_read_only example_env
  ∧ argv !! 1%nat = Some (lit "decks/talk.pptx")
  ∧ is_Some (node_at example_state (Path_of_str (lit "decks/talk.pptx")))
  ∧ run_process example_env [lit "convert"; lit "--version"] = Exited 0
  ∧ main example_env argv example_state = (Ok tt, s')
  ∧ drop 3 (take 5 cmd) = [lit "-quality"; lit "100"]
  ∧ EvPrint (join (lit " ") (take 3 cmd ++ drop 5 cmd)) ∈ trace s'.
Proof.
  split; [apply example_env_benign|].
  split; [reflexivity|]. split; [vm_compute; eexists; reflexivity|].
  split; [reflexivity|]. split; [vm_compute; reflexivity|].
  apply (main_hint_is_convert_cmd example_env
           [lit "generate_test_references.py"; lit "decks/talk.pptx"]
           (lit "decks/talk.pptx") example_state).
  - apply example_env_benign.
  - reflexivity.
  - vm_compute. eexists. reflexivity.
  - reflexivity.
  - vm_compute. reflexivity.
Defined.

(** ** The shape of the metadata text *)

Lemma is_printable_app a b : is_printable (a ++ b) = is_printable a && is_printable b.
Proof. apply forallb_app. Qed.

Lemma hex_digit_printable n : is_printable [hex_digit (N.land n 15)] = true.
Proof.
  assert (N.land n 15 < 16) as H.
  { change 15 with (N.ones 4). rewrite N.land_ones. by apply N.mod_lt. }
  unfold hex_digit, is_printable. simpl. rewrite andb_true_r.
  destruct (N.land n 15 <? 10) eqn:E; apply andb_true_iff; split;
    try apply N.leb_le; try (apply N.ltb_lt in E); try (apply N.ltb_ge in E); lia.
Qed.

Lemma hex4_printable n : is_printable (hex4 n) = true.
Proof.
  unfold hex4.
  change (is_printable ([hex_digit (N.land (N.shiftr n 12) 15)]
                        ++ [hex_digit (N.land (N.shiftr n 8) 15)]
                        ++ [hex_digit (N.land (N.shiftr n 4) 15)]
                        ++ [hex_digit (N.land n 15)]) = true).
  by rewrite !is_printable_app, !hex_digit_printable.
Qed.

Lemma escape_char_printable c : is_printable (escape_char c) = true.
Proof.
  unfold escape_char.
  repeat (match goal with |- is_printable (if ?b then _ else _) = true =>
            destruct b eqn:? end; try reflexivity).
  - unfold is_printable. simpl. by rewrite andb_true_r.
  - change (is_printable ([BACKSLASH; 117] ++ hex4 c) = true).
    by rewrite is_printable_app, hex4_printable.
  - set (s1 := N.lor _ _). set (s2 := N.lor _ _).
    change (is_printable ([BACKSLASH; 117] ++ hex4 s1 ++ [BACKSLASH; 117] ++ hex4 s2)
            = true).
    by rewrite !is_printable_app, !hex4_printable.
Qed.

Lemma encode_basestring_ascii_printable t :
  is_printable (encode_basestring_ascii t) = true.
Proof.
  unfold encode_basestring_ascii. rewrite !is_printable_app.
  assert (is_printable (concat (map escape_char t)) = true) as ->; [|done].
  induction t as [|c t IH]; simpl; [done|].
  by rewrite is_printable_app, escape_char_printable, IH.
Qed.

Lemma printable_line_feeds t : is_printable t = true → line_feeds t = 0%nat.
Proof.
  unfold line_feeds. induction t as [|c t IH]; simpl; [done|].
  intros [[Hc _]%andb_true_iff Ht]%andb_true_iff. apply N.leb_le in Hc.
  destruct (N.eq_dec c 10) as [->|_]; [lia|]. by apply IH.
Qed.

Lemma printable_text t :
  is_printable t = true →
  forallb (λ c, (c =? 10) || (32 <=? c) && (c <=? 126)) t = true.
Proof.
  induction t as [|c t IH]; simpl; [done|].
  intros [Hc Ht]%andb_true_iff. rewrite Hc, orb_true_r. by apply IH.
Qed.

Lemma encode_basestring_ascii_line_feeds t :
  count_occ N.eq_dec (encode_basestring_ascii t) 10 = 0%nat.
Proof. apply printable_line_feeds, encode_basestring_ascii_printable. Qed.

Lemma encode_basestring_ascii_text t :
  forallb (λ c, (c =? 10) || (32 <=? c) && (c <=? 126)) (encode_basestring_ascii t) = true.
Proof. apply printable_text, encode_basestring_ascii_printable. Qed.
(** X13. Whatever characters the path holds (line feeds, quotes,
    backslashes, characters outside ASCII), the text the writer stores
    has exactly six line feeds, hence seven lines, ends with the closing
    brace without a final line feed, and consists of printable ASCII
    characters and line feeds only. *)
Theorem metadata_text_shape env x :
  line_feeds (json_dumps 2 (JDict (metadata env x))) = 6%nat
  ∧ last (json_dumps 2 (JDict (metadata env x))) = Some 125
  ∧ forallb (λ c, (c =? 10) || (32 <=? c) && (c <=? 126))
      (json_dumps 2 (JDict (metadata env x))) = true.
Proof.
  fold (metadata_text env x). rewrite metadata_text_layout.
  unfold metadata_layout, member_line. split; [|split].
  - unfold line_feeds. rewrite !count_occ_app.
    by rewrite !encode_basestring_ascii_line_feeds.
  - change (lit "}") with [125]. rewrite !app_assoc. apply last_snoc.
  - rewrite !forallb_app.
    by rewrite !encode_basestring_ascii_text.
Qed.


(** ** Normalisation of path arguments *)

Lemma Path_of_str_components s :
  Forall (λ x, is_component x = true) (names (Path_of_str s)).
Proof.
  unfold Path_of_str. destruct (splitroot s) as [rt rel]. simpl.
  apply Forall_forall. by intros x [Hc _]%list_elem_of_filter.
Qed.

Lemma split_sep_app_sep x t :
  SEP ∉ x → split_sep (x ++ SEP :: t) = x :: split_sep t.
Proof.
  induction x as [|c x IH]; intros Hx; simpl.
  - done.
  - destruct (c =? SEP) eqn:E.
    + apply N.eqb_eq in E. subst. exfalso. apply Hx, elem_of_cons. by left.
    + rewrite IH; [done|]. intros ?. apply Hx, elem_of_cons. by right.
Qed.

Lemma split_sep_join ns :
  ns ≠ [] → Forall (λ x, SEP ∉ x) ns → split_sep (join [SEP] ns) = ns.
Proof.
  induction ns as [|x r IH]; [done|]. intros _ Hall.
  apply Forall_cons in Hall as [Hx Hr]. destruct r as [|y r'].
  - by apply split_sep_single.
  - change (join [SEP] (x :: y :: r')) with (x ++ SEP :: join [SEP] (y :: r')).
    rewrite split_sep_app_sep by done. by rewrite IH.
Qed.

Lemma join_head c x r : ∃ t, join [SEP] ((c :: x) :: r) = c :: t.
Proof. destruct r; simpl; eauto. Qed.

Lemma filter_components ns :
  Forall (λ x, is_component x = true) ns →
  filter (λ x, is_component x = true) ns = ns.
Proof.
  induction 1 as [|x r Hx _ IH]; [done|].
  by rewrite filter_cons_True, IH.
Qed.

Lemma parse_relative ns :
  Forall (λ x, (SEP ∉ x) ∧ x ≠ []) ns →
  Forall (λ x, is_component x = true) ns →
  lstrip_sep (join [SEP] ns) = join [SEP] ns
  ∧ filter (λ x, is_component x = true) (split_sep (join [SEP] ns)) = ns.
Proof.
  intros Hall Hcomp. destruct ns as [|x r]; [done|].
  assert (Forall (λ x, SEP ∉ x) (x :: r)) as Hsep.
  { eapply Forall_impl; [exact Hall|]. by intros ? [? ?]. }
  rewrite split_sep_join, filter_components by done. split; [|done].
  apply Forall_cons in Hall as [[Hx Hne] _]. destruct x as [|c x]; [done|].
  destruct (join_head c x r) as [t ->]. simpl.
  destruct (c =? SEP) eqn:E; [|done].
  apply N.eqb_eq in E. subst. exfalso. apply Hx, elem_of_cons. by left.
Qed.

(** Parsing the text of a parsed path gives the path back. *)
Lemma Path_of_str_Path_str a : Path_of_str (Path_str (Path_of_str a)) = Path_of_str a.
Proof.
  pose proof (Path_of_str_names a) as Hall.
  pose proof (Path_of_str_components a) as Hcomp.
  pose proof (Path_of_str_root a) as Hroot.
  destruct (Path_of_str a) as [rt ns]. simpl in *.
  destruct (parse_relative ns Hall Hcomp) as [Hstrip Hsplit].
  destruct Hroot as [->|[->| ->]].
  - destruct ns as [|x r]; [reflexivity|].
    apply Forall_cons in Hall as [[Hx Hne] _]. destruct x as [|c x]; [done|].
    unfold Path_str. cbn [root names app]. unfold Path_of_str, splitroot.
    destruct (join_head c x r) as [t Ht]. rewrite Ht in *.
    assert ((c =? SEP) = false) as ->.
    { apply N.eqb_neq. intros ->. apply Hx, elem_of_cons. by left. }
    by rewrite Hsplit.
  - unfold Path_str. cbn [root names].
    change ([SEP] ++ join [SEP] ns) with (SEP :: join [SEP] ns).
    unfold Path_of_str, splitroot. rewrite N.eqb_refl.
    change (lstrip_sep (SEP :: join [SEP] ns)) with (lstrip_sep (join [SEP] ns)).
    rewrite Hstrip.
    replace (length (SEP :: join [SEP] ns) - length (join [SEP] ns))%nat with 1%nat
      by (simpl; lia).
    cbn [Nat.eqb]. by rewrite Hsplit.
  - unfold Path_str. cbn [root names].
    change ([SEP; SEP] ++ join [SEP] ns) with (SEP :: SEP :: join [SEP] ns).
    unfold Path_of_str, splitroot. rewrite N.eqb_refl.
    change (lstrip_sep (SEP :: SEP :: join [SEP] ns)) with (lstrip_sep (join [SEP] ns)).
    rewrite Hstrip.
    replace (length (SEP :: SEP :: join [SEP] ns) - length (join [SEP] ns))%nat
      with 2%nat by (simpl; lia).
    cbn [Nat.eqb]. by rewrite Hsplit.
Qed.

(** The run after the probe depends on its argument only through the
    parsed path. *)
Lemma main_rest_depends_on_path env argv argv' arg arg' deps s :
  argv !! 1%nat = Some arg →
  argv' !! 1%nat = Some arg' →
  Path_of_str arg = Path_of_str arg' →
  main_rest env argv deps s = main_rest env argv' deps s.
Proof.
  intros Harg Harg' Hpath. unfold main_rest.
  assert ((length argv <? 2)%nat = false) as ->.
  { apply Nat.ltb_ge. apply lookup_lt_Some in Harg. lia. }
  assert ((length argv' <? 2)%nat = false) as ->.
  { apply Nat.ltb_ge. apply lookup_lt_Some in Harg'. lia. }
  unfold list_getitem. rewrite Harg, Harg'.
  unfold mbind at 1 3, M_bind, mret, M_ret. cbv beta iota zeta.
  by rewrite Hpath.
Qed.

Lemma main_depends_on_path env argv argv' arg arg' s :
  argv !! 1%nat = Some arg →
  argv' !! 1%nat = Some arg' →
  Path_of_str arg = Path_of_str arg' →
  main env argv s = main env argv' s.
Proof.
  intros Harg Harg' Hpath. rewrite !main_split. unfold mbind, M_bind.
  destruct (check_dependencies env _) as [[d|e] s1]; [|done].
  by apply (main_rest_depends_on_path env argv argv' arg arg').
Qed.

(** X14. The entry point sees its argument only through [Path]: a run on
    an argument and a run on the normalised text of that argument
    (doubled and trailing slashes and "." components removed) are the
    same run, with the same prints, the same files and the same outcome. *)
Theorem main_on_normalised_argument env prog arg rest s :
  main env (prog :: Path_str (Path_of_str arg) :: rest) s
  = main env (prog :: arg :: rest) s.
Proof.
  apply (main_depends_on_path env _ _ (Path_str (Path_of_str arg)) arg);
    [done|done|]. apply Path_of_str_Path_str.
Qed.

(** X15. The metadata writer and the rasterizer invoker accept a [Path]
    or its text alike: given the text of a parsed path they behave as
    when given the path itself. *)
Theorem path_text_or_path env arg pdf_path dpi s :
  let p := Path_of_str arg in
  generate_reference_data env (PStr (Path_str p)) s
  = generate_reference_data env (PPath p) s
  ∧ pdf_to_images env pdf_path (PStr (Path_str p)) dpi s
    = pdf_to_images env pdf_path (PPath p) dpi s.
Proof.
  intros p. unfold generate_reference_data, pdf_to_images, metadata.
  cbn [Path_of str_of]. unfold p. by rewrite Path_of_str_Path_str.
Qed.

(** X16. When a regular file sits where the output directory or one of
    its ancestors should be, the run on an existing input (the version
    queries launched and leaving the file system alone, the operating
    system reporting no error of its own) stops with the exception of
    [mkdir] (exit status 1) right after the dependency probe: the
    processing lines are not printed and no metadata file is written. *)
Theorem main_blocked_output_directory env argv arg s :
  let p := Path_of_str arg in
  probe_benign env →
  os_quiet env →
  argv !! 1%nat = Some arg →
  is_Some (node_at s p) →
  creatable s (output_dir_of p) = false →
  ∃ e s' created,
    main env argv s = (Raise e, s')
    ∧ (e = FileExistsError ∨ e = NotADirectoryError)
    ∧ trace s' = trace s ++ header ++ deps_trace env ++ map EvMkdir created
    ∧ exit_status (main env argv s).1 = 1%Z.
Proof.
  intros p Hb Hq Harg Hex Hmk. rewrite (main_existing _ _ _ _ Hb (Hq _) Harg Hex).
  fold p.
  destruct (mkdir_blocked env (output_dir_of p) (after_probe env s) Hmk)
    as (e & s' & Hfail).
  destruct (mkdir_walk_trace env (root (output_dir_of p)) [] (names (output_dir_of p))
              (after_probe env s)) as (created & Htr & _).
  fold (mkdir_parents_exist_ok env (output_dir_of p) (after_probe env s)) in Htr.
  rewrite Hfail in *. cbn [snd] in Htr. exists e, s', created.
  split; [done|]. split.
  { apply mkdir_walk_exn in Hfail as [->|[->|(q & f & Hf & _)]]; auto.
    by rewrite Hq in Hf. }
  split; [|done].
  rewrite Htr. unfold after_probe. cbn [trace]. by rewrite <- !app_assoc.
Qed.

Lemma main_blocked_output_directory_witness :
  let argv := [lit "generate_test_references.py"; lit "talk.pptx"] in
  let p := Path_of_str (lit "talk.pptx") in
  let s := mkState (<[lit "tests" := File (lit "notes")]>
                      (<[lit "talk.pptx" := File (lit "PK")]> ∅)) [] in
  probe_benign example_env
  ∧ os_quiet example_env
  ∧ argv !! 1%nat = Some (lit "talk.pptx")
  ∧ is_Some (node_at s p)
  ∧ creatable s (output_dir_of p) = false
  ∧ ∃ e s' created,
      main example_env argv s = (Raise e, s')
      ∧ (e = FileExistsError ∨ e = NotADirectoryError)
      ∧ trace s' = trace s ++ header ++ deps_trace example_env ++ map EvMkdir created
      ∧ exit_status (main example_env argv s).1 = 1%Z.
Proof.
  split; [apply example_env_benign|]. split; [apply example_env_quiet|].
  split; [reflexivity|]. split; [vm_compute; eexists; reflexivity|].
  split; [vm_compute; reflexivity|].
  apply (main_blocked_output_directory example_env
           [lit "generate_test_references.py"; lit "talk.pptx"] (lit "talk.pptx")
           (mkState (<[lit "tests" := File (lit "notes")]>
                       (<[lit "talk.pptx" := File (lit "PK")]> ∅)) [])).
  - apply example_env_benign.
  - apply example_env_quiet.
  - reflexivity.
  - vm_compute. eexists. reflexivity.
  - vm_compute. reflexivity.
Defined.
